(** * Net-cafe automation: the persistence layer of [database.py]

    A shallow embedding of the data-access module: the four SQL tables
    as lists of rows in rowid order, every function of the module that
    reads or writes them as a function on the database value, and the
    wall clock as explicit readings passed to the functions that call
    [datetime.now()].  The handlers of [main.py] that reach the
    database are embedded on top of it, each returning what it shows
    and the database it leaves.

    Conventions of the embedding.
    - SQLite [INTEGER] and Python [int] are [Z]; a value outside the
      64-bit range, which SQLite refuses, is not modelled.
    - SQLite [REAL] and Python [float] are exact rationals [Q]: the
      development reasons about the arithmetic the code writes down,
      not about binary64 rounding error.  [round(x, 2)] is rounding of
      the exact value to hundredths, ties to even, and [round(x)] is
      rounding to an integer, ties to even.
    - A naive [datetime] is a count of microseconds; the text
      [isoformat(timespec="seconds")] is the count of whole seconds it
      denotes.
    - A nullable column, and a dictionary entry the code tests for
      [None], is an [option]. *)

From Stdlib Require Import ZArith QArith Qround Qabs List String Bool Lia Lqa.
From Stdlib Require Import DecimalString Sorted Permutation.
Import ListNotations.

#[local] Open Scope Z_scope.

(** ** Constants *)

Definition TABLE_KIND_VIP : string := "VIP".
Definition TABLE_KIND_STANDARD : string := "Standard".
Definition STATUS_EMPTY : string := "Empty".
Definition STATUS_OCCUPIED : string := "Occupied".
Definition STATUS_RESERVED : string := "Reserved".
Definition STATUS_OUT_OF_ORDER : string := "OutOfOrder".
Definition CATEGORY_FOOD : string := "Food".
Definition CATEGORY_DRINK : string := "Drink".

(** ** Rows of the four tables *)

Record table_row : Type := mk_table
  { t_id : Z;
    t_name : string;
    t_kind : string;
    t_status : string;
    t_hardware : string;
    t_is_out_of_order : Z }.

Record session_row : Type := mk_session
  { s_id : Z;
    s_table_id : Z;
    s_start_ts : option Z;
    s_end_ts : option Z;
    s_kind : string;
    s_planned_minutes : option Z;
    s_hourly_rate : option Q }.

Record product_row : Type := mk_product
  { p_id : Z;
    p_name : string;
    p_category : string;
    p_price : Q;
    p_stock : Z }.

Record order_row : Type := mk_order
  { o_id : Z;
    o_session_id : Z;
    o_product_id : Z;
    o_quantity : Z;
    o_amount : Q }.

Record db : Type := mk_db
  { tables : list table_row;
    sessions : list session_row;
    products : list product_row;
    orders : list order_row }.

(** ** Time and rounding *)

Definition microseconds_per_second : Z := 1000000.

(** [datetime.isoformat(timespec="seconds")]: the microseconds are dropped. *)
Definition isoformat_seconds (now : Z) : Z := now / microseconds_per_second.

(** [datetime.fromisoformat] on such a text. *)
Definition fromisoformat (ts : Z) : Z := ts * microseconds_per_second.

(** [timedelta.total_seconds()]. *)
Definition total_seconds (delta : Z) : Q := inject_Z delta / inject_Z microseconds_per_second.

(** Python's [round(x)]: nearest integer, ties to the even one. *)
Definition round_half_even (x : Q) : Z :=
  let f := Qfloor x in
  match Qcompare (x - inject_Z f) (1 # 2) with
  | Lt => f
  | Gt => f + 1
  | Eq => if Z.even f then f else f + 1
  end.

(** Python's [round(x, 2)]. *)
Definition round2 (x : Q) : Q := (round_half_even (x * 100) # 100)%Q.

(** Truth value of [session.get("planned_minutes")]. *)
Definition truthy (v : option Z) : bool :=
  match v with
  | Some n => negb (n =? 0)
  | None => false
  end.

(** ** AUTOINCREMENT keys *)

Definition next_id (ids : list Z) : Z := 1 + fold_right Z.max 0 ids.

(** ** Queries and updates *)

Definition fetch_table (table_id : Z) (d : db) : option table_row :=
  find (fun r => t_id r =? table_id) (tables d).

Definition get_hourly_rate (table_id : Z) (d : db) : Q :=
  match fetch_table table_id d with
  | None => 0
  | Some table => if (t_kind table =? TABLE_KIND_VIP)%string then 30 else 20
  end%Q.

Definition is_none {A : Type} (v : option A) : bool :=
  match v with
  | None => true
  | Some _ => false
  end.

Definition is_active (table_id : Z) (s : session_row) : bool :=
  (s_table_id s =? table_id) && is_none (s_end_ts s).

Definition fetch_active_session (table_id : Z) (d : db) : option session_row :=
  find (is_active table_id) (sessions d).

Definition set_status (status : string) (r : table_row) : table_row :=
  mk_table (t_id r) (t_name r) (t_kind r) status (t_hardware r) (t_is_out_of_order r).

Definition update_where {A : Type} (p : A -> bool) (f : A -> A) (rows : list A) : list A :=
  map (fun r => if p r then f r else r) rows.

Definition insert_session (table_id now : Z) (kind : string)
    (planned : option Z) (rate : Q) (d : db) : db :=
  let row := mk_session (next_id (map s_id (sessions d))) table_id
               (Some (isoformat_seconds now)) None kind planned (Some rate) in
  mk_db (update_where (fun r => t_id r =? table_id) (set_status STATUS_OCCUPIED) (tables d))
        (sessions d ++ [row]) (products d) (orders d).

Definition start_timed_session (now table_id minutes : Z) (d : db) : db :=
  match fetch_active_session table_id d with
  | Some _ => d
  | None =>
      let rate := get_hourly_rate table_id d in
      insert_session table_id now "Timed" (Some minutes) rate d
  end.

Definition start_unlimited_session (now table_id : Z) (d : db) : db :=
  match fetch_active_session table_id d with
  | Some _ => d
  | None =>
      let rate := get_hourly_rate table_id d in
      insert_session table_id now "Unlimited" None rate d
  end.

Definition set_stock (stock : Z) (p : product_row) : product_row :=
  mk_product (p_id p) (p_name p) (p_category p) (p_price p) stock.

Definition add_order (table_id product_id quantity : Z) (d : db) : bool * db :=
  match fetch_active_session table_id d with
  | None => (false, d)
  | Some session =>
      match find (fun p => p_id p =? product_id) (products d) with
      | None => (false, d)
      | Some row =>
          let stock := p_stock row in
          let price := p_price row in
          if stock <? quantity then (false, d)
          else
            let amount := (price * inject_Z quantity)%Q in
            let o := mk_order (next_id (map o_id (orders d))) (s_id session)
                       product_id quantity amount in
            (true,
             mk_db (tables d) (sessions d)
                   (update_where (fun p => p_id p =? product_id)
                      (fun p => set_stock (p_stock p - quantity) p) (products d))
                   (orders d ++ [o]))
      end
  end.

Definition Qsum (l : list Q) : Q := fold_right Qplus 0%Q l.

(** The join of [orders] with [sessions] on the session id, restricted
    to the open sessions of the table, summed over [amount]. *)
Definition get_active_session_order_total (table_id : Z) (d : db) : Q :=
  Qsum (flat_map
          (fun o => map (fun _ => o_amount o)
                      (filter (fun s => (s_id s =? o_session_id o) && is_active table_id s)
                         (sessions d)))
          (orders d)).

(** The clock readings of one [_calculate_time_charge] call: the reading
    taken in place of a missing start timestamp, and the reading [end]. *)
Definition _calculate_time_charge (now_start now_end : Z) (session : session_row) : Q * Z :=
  let hourly := match s_hourly_rate session with Some r => r | None => 0%Q end in
  if (s_kind session =? "Timed")%string && truthy (s_planned_minutes session) then
    let minutes := match s_planned_minutes session with Some m => m | None => 0 end in
    let charge := round2 (hourly * (inject_Z minutes / 60)) in
    (charge, minutes)
  else
    let start := match s_start_ts session with
                 | Some ts => fromisoformat ts
                 | None => now_start
                 end in
    let minutes := round_half_even (total_seconds (now_end - start) / 60) in
    let minutes := if minutes <? 1 then 1 else minutes in
    let charge := round2 (hourly * (inject_Z minutes / 60)) in
    (charge, minutes).

Definition set_end_ts (ts : Z) (s : session_row) : session_row :=
  mk_session (s_id s) (s_table_id s) (s_start_ts s) (Some ts) (s_kind s)
             (s_planned_minutes s) (s_hourly_rate s).

Definition close_status (r : table_row) : table_row :=
  set_status (if t_is_out_of_order r =? 1 then STATUS_OUT_OF_ORDER else STATUS_EMPTY) r.

(** [now_close] is the third reading, taken for the end timestamp. *)
Definition end_session (now_start now_end now_close : Z) (table_id : Z) (d : db)
    : (Q * Z) * db :=
  match fetch_active_session table_id d with
  | None => ((0%Q, 0), d)
  | Some session =>
      let r := _calculate_time_charge now_start now_end session in
      let now := isoformat_seconds now_close in
      (r,
       mk_db (update_where (fun r => t_id r =? table_id) close_status (tables d))
             (update_where (fun s => s_id s =? s_id session) (set_end_ts now) (sessions d))
             (products d) (orders d))
  end.

Definition mark_out_of_order_row (r : table_row) : table_row :=
  mk_table (t_id r) (t_name r) (t_kind r) STATUS_OUT_OF_ORDER (t_hardware r) 1.

Definition mark_table_out_of_order (table_id : Z) (d : db) : db :=
  mk_db (update_where (fun r => t_id r =? table_id) mark_out_of_order_row (tables d))
        (sessions d) (products d) (orders d).

(** ** Seeding ([init_db]) *)

Definition table_name (i : Z) : string :=
  ("Table " ++ NilZero.string_of_int (Z.to_int i))%string.

Definition seed_table (acc : list table_row) (i : Z) : list table_row :=
  let kind := if i <=? 5 then TABLE_KIND_VIP else TABLE_KIND_STANDARD in
  let hardware := if (kind =? TABLE_KIND_VIP)%string
                  then "RTX 4060 Ti, 165Hz Monitor"%string
                  else "GTX 1650, 75Hz Monitor"%string in
  acc ++ [mk_table (next_id (map t_id acc)) (table_name i) kind STATUS_EMPTY hardware 0].

Definition seed_products : list (string * string * Q * Z) :=
  [ ("Cheese Toast"%string, CATEGORY_FOOD, 50%Q, 50);
    ("Sausage Toast"%string, CATEGORY_FOOD, 60%Q, 50);
    ("Mixed Toast"%string, CATEGORY_FOOD, 70%Q, 50);
    ("Patso Sandwich"%string, CATEGORY_FOOD, 45%Q, 40);
    ("Pizza"%string, CATEGORY_FOOD, 120%Q, 30);
    ("Water"%string, CATEGORY_DRINK, 10%Q, 100);
    ("Tea"%string, CATEGORY_DRINK, 15%Q, 100);
    ("Cola"%string, CATEGORY_DRINK, 25%Q, 80);
    ("Fanta"%string, CATEGORY_DRINK, 25%Q, 80);
    ("Sprite"%string, CATEGORY_DRINK, 25%Q, 80) ].

Definition seed_product (acc : list product_row) (p : string * string * Q * Z)
    : list product_row :=
  let '(name, category, price, stock) := p in
  acc ++ [mk_product (next_id (map p_id acc)) name category price stock].

Definition init_db (d : db) : db :=
  let ts := if (Z.of_nat (List.length (tables d)) =? 0)
            then fold_left seed_table (map Z.of_nat (seq 1 20)) (tables d)
            else tables d in
  let ps := if (Z.of_nat (List.length (products d)) =? 0)
            then fold_left seed_product seed_products (products d)
            else products d in
  mk_db ts (sessions d) ps (orders d).

Definition empty_db : db := mk_db [] [] [] [].

(** The database right after the first start of the program. *)
Definition seeded_db : db := Eval vm_compute in init_db empty_db.

(** ** Sequences of operations *)

Inductive operation : Type :=
| StartTimed (now table_id minutes : Z)
| StartUnlimited (now table_id : Z)
| AddOrder (table_id product_id quantity : Z)
| EndSession (now_start now_end now_close table_id : Z)
| MarkOutOfOrder (table_id : Z).

Definition step (d : db) (op : operation) : db :=
  match op with
  | StartTimed now table_id minutes => start_timed_session now table_id minutes d
  | StartUnlimited now table_id => start_unlimited_session now table_id d
  | AddOrder table_id product_id quantity => snd (add_order table_id product_id quantity d)
  | EndSession now_start now_end now_close table_id =>
      snd (end_session now_start now_end now_close table_id d)
  | MarkOutOfOrder table_id => mark_table_out_of_order table_id d
  end.

Definition run (ops : list operation) (d : db) : db := fold_left step ops d.

(** ** Properties named by the specification *)

(** The PRIMARY KEY constraint of the [products] table. *)
Definition products_pk (d : db) : Prop := NoDup (map p_id (products d)).

Definition stock_nonneg (d : db) : Prop :=
  forall p, In p (products d) -> 0 <= p_stock p.

(** At most one session without end timestamp for each table. *)
Definition at_most_one_open (d : db) : Prop :=
  forall table_id, (List.length (filter (is_active table_id) (sessions d)) <= 1)%nat.

(** A change of prices that touches nothing else. *)
Definition reprice (f : product_row -> Q) (d : db) : db :=
  mk_db (tables d) (sessions d)
        (map (fun p => mk_product (p_id p) (p_name p) (p_category p) (f p) (p_stock p))
             (products d))
        (orders d).

(** The three ways [add_order] can end, as the code distinguishes them. *)
Inductive add_order_outcome (table_id product_id quantity : Z) (d : db)
    : bool * db -> Prop :=
| no_session :
    fetch_active_session table_id d = None ->
    add_order_outcome table_id product_id quantity d (false, d)
| no_product session :
    fetch_active_session table_id d = Some session ->
    find (fun p => p_id p =? product_id) (products d) = None ->
    add_order_outcome table_id product_id quantity d (false, d)
| no_stock session row :
    fetch_active_session table_id d = Some session ->
    find (fun p => p_id p =? product_id) (products d) = Some row ->
    p_stock row < quantity ->
    add_order_outcome table_id product_id quantity d (false, d)
| placed session row :
    fetch_active_session table_id d = Some session ->
    find (fun p => p_id p =? product_id) (products d) = Some row ->
    quantity <= p_stock row ->
    add_order_outcome table_id product_id quantity d
      (true,
       mk_db (tables d) (sessions d)
         (update_where (fun p => p_id p =? product_id)
            (fun p => set_stock (p_stock p - quantity) p) (products d))
         (orders d ++
            [mk_order (next_id (map o_id (orders d))) (s_id session) product_id quantity
               (p_price row * inject_Z quantity)%Q])).

(** A change of prices or an operation of the module, as one event in
    the life of the database. *)
Inductive event : Type :=
| Operation (op : operation)
| PriceChange (f : product_row -> Q).

Definition apply_event (d : db) (e : event) : db :=
  match e with
  | Operation op => step d op
  | PriceChange f => reprice f d
  end.

(** ** The time charge, as the specification words it *)

(** The rate a session is billed at. *)
Definition hourly_of (s : session_row) : Q :=
  match s_hourly_rate s with
  | Some r => r
  | None => 0%Q
  end.

(** The instant a session counts as started. *)
Definition session_start (now_start : Z) (s : session_row) : Z :=
  match s_start_ts s with
  | Some ts => fromisoformat ts
  | None => now_start
  end.

(** [m] is a whole number of minutes nearest to [delta] microseconds. *)
Definition nearest_minute (delta m : Z) : Prop :=
  2 * Z.abs (delta - m * 60000000) <= 60000000.

(** [charge] is [hourly * minutes / 60] rounded to a whole number of
    hundredths. *)
Definition is_charge (hourly : Q) (minutes : Z) (charge : Q) : Prop :=
  exists cents : Z,
    charge = (cents # 100)%Q /\
    (Qabs (hourly * (inject_Z minutes / 60) * 100 - inject_Z cents) <= 1 # 2)%Q.

(** Elapsed minutes between two instants, rounded, and at least one. *)
Definition elapsed_minutes (start now_end : Z) : Z :=
  Z.max 1 (round_half_even (total_seconds (now_end - start) / 60)).

(** The minutes a session is billed for, read off the session: the
    planned duration of a Timed session whose planned duration is not
    zero, and for every other session the minutes elapsed from its
    start to the close. *)
Definition billed_minutes (now_start now_end : Z) (s : session_row) : Z :=
  match s_planned_minutes s with
  | Some m =>
      if (s_kind s =? "Timed")%string && negb (m =? 0) then m
      else elapsed_minutes (session_start now_start s) now_end
  | None => elapsed_minutes (session_start now_start s) now_end
  end.

(** ** Further properties of the stored rows *)

(** The PRIMARY KEY constraint of the [sessions] table. *)
Definition sessions_pk (d : db) : Prop := NoDup (map s_id (sessions d)).

(** The units of a product that the stored orders account for. *)
Definition ordered_quantity (product_id : Z) (os : list order_row) : Z :=
  fold_right Z.add 0
    (map o_quantity (filter (fun o => o_product_id o =? product_id) os)).

(** Every table shown as Occupied has a session without end timestamp. *)
Definition occupied_has_session (d : db) : Prop :=
  forall r, In r (tables d) -> t_status r = STATUS_OCCUPIED ->
            fetch_active_session (t_id r) d <> None.

(** What a session row keeps for its whole life: everything but the
    end timestamp. *)
Definition same_session (s s' : session_row) : Prop :=
  s_id s' = s_id s /\ s_table_id s' = s_table_id s /\
  s_start_ts s' = s_start_ts s /\ s_kind s' = s_kind s /\
  s_planned_minutes s' = s_planned_minutes s /\
  s_hourly_rate s' = s_hourly_rate s.

(** ** Ordered and grouped queries *)

(** [ORDER BY]: rows are put in place one by one, a row going before
    the first row it does not exceed, so rows with equal keys keep
    their rowid order. *)
Fixpoint insert_by {A : Type} (leb : A -> A -> bool) (x : A) (l : list A) : list A :=
  match l with
  | [] => [x]
  | y :: l' => if leb x y then x :: l else y :: insert_by leb x l'
  end.

Definition sort_by {A : Type} (leb : A -> A -> bool) (l : list A) : list A :=
  fold_right (insert_by leb) [] l.

Definition by_name (a b : product_row) : bool := (p_name a <=? p_name b)%string.

(** [fetch_products]: the category filters only when it is given and
    not the empty text. *)
Definition fetch_products (category : option string) (d : db) : list product_row :=
  match category with
  | Some c =>
      if (c =? "")%string then sort_by by_name (products d)
      else sort_by by_name (filter (fun p => (p_category p =? c)%string) (products d))
  | None => sort_by by_name (products d)
  end.

Definition Zsum (l : list Z) : Z := fold_right Z.add 0 l.

(** The rows of [orders JOIN sessions JOIN products] for the open
    sessions of a table: product name, quantity, amount. *)
Definition session_order_rows (table_id : Z) (d : db) : list (string * Z * Q) :=
  flat_map
    (fun o =>
       flat_map
         (fun s =>
            map (fun p => (p_name p, o_quantity o, o_amount o))
                (filter (fun p => p_id p =? o_product_id o) (products d)))
         (filter (fun s => (s_id s =? o_session_id o) && is_active table_id s)
            (sessions d)))
    (orders d).

Record line_item : Type := mk_line
  { li_name : string;
    li_total_qty : Z;
    li_total_amount : Q }.

Definition row_name (r : string * Z * Q) : string := fst (fst r).
Definition row_quantity (r : string * Z * Q) : Z := snd (fst r).
Definition row_amount (r : string * Z * Q) : Q := snd r.

(** [GROUP BY name ORDER BY name] with the two sums. *)
Definition group_by_name (rows : list (string * Z * Q)) : list line_item :=
  map (fun n =>
         let g := filter (fun r => (row_name r =? n)%string) rows in
         mk_line n (Zsum (map row_quantity g)) (Qsum (map row_amount g)))
      (sort_by String.leb (nodup string_dec (map row_name rows))).

Definition fetch_active_session_orders (table_id : Z) (d : db) : list line_item :=
  group_by_name (session_order_rows table_id d).

(** Every order names a product that exists (the FOREIGN KEY of
    [orders.product_id]). *)
Definition orders_refer_products (d : db) : Prop :=
  forall o, In o (orders d) -> exists p, In p (products d) /\ p_id p = o_product_id o.

(** ** End-of-day reports *)

Definition seconds_per_day : Z := 86400.

(** [DATE(ts)] of a timestamp text, as a count of days. *)
Definition date_of (ts : Z) : Z := ts / seconds_per_day.

(** [DATE(end_ts) = DATE('now','localtime')]; false on a NULL end. *)
Definition closed_on (today : Z) (s : session_row) : bool :=
  match s_end_ts s with
  | Some e => date_of e =? today
  | None => false
  end.

(** The loop [session_revenue += charge]; [clock k] holds the two clock
    readings of the [k]-th call of [_calculate_time_charge]. *)
Fixpoint session_revenue_from (clock : nat -> Z * Z) (k : nat)
    (ss : list session_row) (acc : Q) : Q :=
  match ss with
  | [] => acc
  | s :: ss' =>
      let charge := fst (_calculate_time_charge (fst (clock k)) (snd (clock k)) s) in
      session_revenue_from clock (S k) ss' (acc + charge)%Q
  end.

(** [orders JOIN sessions] for the sessions closed on the day. *)
Definition day_order_rows (today : Z) (d : db) : list order_row :=
  flat_map
    (fun o =>
       map (fun _ => o)
           (filter (fun s => (s_id s =? o_session_id o) && closed_on today s)
              (sessions d)))
    (orders d).

(** [orders JOIN sessions JOIN products] for the sessions closed on the day. *)
Definition day_product_rows (today : Z) (d : db) : list (product_row * order_row) :=
  flat_map
    (fun o =>
       flat_map
         (fun s =>
            map (fun p => (p, o))
                (filter (fun p => p_id p =? o_product_id o) (products d)))
         (filter (fun s => (s_id s =? o_session_id o) && closed_on today s)
            (sessions d)))
    (orders d).

(** [GROUP BY key] with one sum; the groups come in ascending order of
    the key, the order of SQLite's sorter. *)
Definition group_sum_Q {R : Type} (key : R -> string) (val : R -> Q) (rows : list R)
    : list (string * Q) :=
  map (fun n => (n, Qsum (map val (filter (fun r => (key r =? n)%string) rows))))
      (sort_by String.leb (nodup string_dec (map key rows))).

Definition group_sum_Z {R : Type} (key : R -> string) (val : R -> Z) (rows : list R)
    : list (string * Z) :=
  map (fun n => (n, Zsum (map val (filter (fun r => (key r =? n)%string) rows))))
      (sort_by String.leb (nodup string_dec (map key rows))).

Record report : Type := mk_report
  { session_revenue : Q;
    order_revenue : Q;
    total_revenue : Q;
    order_count : Z;
    category_totals : list (string * Q) }.

(** Each of the three queries reads the local date for itself. *)
Definition get_end_of_day_report (today_sessions today_orders today_categories : Z)
    (clock : nat -> Z * Z) (d : db) : report :=
  let sessions_today := filter (closed_on today_sessions) (sessions d) in
  let session_revenue := session_revenue_from clock 0 sessions_today 0%Q in
  let rows := day_order_rows today_orders d in
  let order_revenue := Qsum (map o_amount rows) in
  let order_count := Zsum (map o_quantity rows) in
  let category_totals :=
    group_sum_Q (fun r => p_category (fst r)) (fun r => o_amount (snd r))
      (day_product_rows today_categories d) in
  mk_report (round2 session_revenue) (round2 order_revenue)
            (round2 (session_revenue + order_revenue)) order_count category_totals.

Definition get_end_of_day_product_report (today : Z) (d : db) : list (string * Z) :=
  group_sum_Z (fun r => p_name (fst r)) (fun r => o_quantity (snd r))
    (day_product_rows today d).

(** ** The handlers of [main.py]

    A handler returns what it shows and the database it leaves.  The
    text of an entry field is given as [int()] reads it. *)

Record bill : Type := mk_bill
  { b_table_name : string;
    b_table_kind : string;
    b_minutes : Z;
    b_time_charge : Q;
    b_line_items : list line_item;
    b_total : Q }.

Inductive dialog : Type :=
| NoDialog
| ShowWarning (text : string)
| ShowError (text : string)
| ShowInfo (text : string)
| BillSummary (b : bill)
| OpenSessionStartWindow (table_id : Z)
| OpenOrderWindow (table_id : Z).

Inductive entry_text : Type :=
| Blank
| Number (n : Z)
| NotANumber.

(** [int(text or "1")]; [None] when [int] raises. *)
Definition int_or_one (e : entry_text) : option Z :=
  match e with
  | Blank => Some 1
  | Number n => Some n
  | NotANumber => None
  end.

Module SessionStartWindow.

(** The charge shown for a timed session; [None] is the label "Opening". *)
Definition update_price (session_type : string) (minutes : option Z)
    (table_id : Z) (d : db) : option Q :=
  if (session_type =? "Timed")%string then
    let minutes := match minutes with Some m => m | None => 60 end in
    let rate := get_hourly_rate table_id d in
    Some (round2 (rate * (inject_Z minutes / 60)))
  else None.

Definition start_session (now table_id : Z) (session_type : string)
    (minutes : option Z) (d : db) : dialog * db :=
  match fetch_table table_id d with
  | None => (ShowError "Table not found.", d)
  | Some table =>
      if (t_status table =? STATUS_OUT_OF_ORDER)%string then
        (ShowError "Cannot start a session on an out-of-order table.", d)
      else if (session_type =? "Timed")%string then
        match minutes with
        | None => (ShowError "Invalid duration.", d)
        | Some minutes => (NoDialog, start_timed_session now table_id minutes d)
        end
      else (NoDialog, start_unlimited_session now table_id d)
  end.

End SessionStartWindow.

Module OrderWindow.

Definition add_order (table_id : Z) (selected_product_id : option Z)
    (qty_entry : entry_text) (d : db) : dialog * db :=
  match selected_product_id with
  | None => (ShowWarning "Please select a product.", d)
  | Some product_id =>
      match int_or_one qty_entry with
      | None => (ShowError "Invalid quantity.", d)
      | Some qty =>
          if qty <=? 0 then (ShowError "Invalid quantity.", d)
          else
            let (success, d') := add_order table_id product_id qty d in
            if success then (ShowInfo "Order added.", d')
            else (ShowError "Insufficient stock or product not found.", d')
      end
  end.

End OrderWindow.

Module CafeApp.

Definition start_session (selected_table_id : option Z) (d : db) : dialog :=
  match selected_table_id with
  | None => ShowWarning "Please select a table."
  | Some table_id =>
      match fetch_table table_id d with
      | None => NoDialog
      | Some table =>
          if (t_status table =? STATUS_OUT_OF_ORDER)%string then
            ShowError "Cannot start a session on an out-of-order table."
          else OpenSessionStartWindow table_id
      end
  end.

Definition add_order (selected_table_id : option Z) (d : db) : dialog :=
  match selected_table_id with
  | None => ShowWarning "Please select a table."
  | Some table_id =>
      match fetch_table table_id d with
      | None => ShowError "No active session; start a session first."
      | Some table =>
          if negb (t_status table =? STATUS_OCCUPIED)%string then
            ShowError "No active session; start a session first."
          else OpenOrderWindow table_id
      end
  end.

Definition close_bill (now_start now_end now_close : Z) (selected_table_id : option Z)
    (d : db) : dialog * db :=
  match selected_table_id with
  | None => (ShowWarning "Please select a table.", d)
  | Some table_id =>
      match fetch_table table_id d with
      | None => (ShowError "No active session.", d)
      | Some table =>
          if negb (t_status table =? STATUS_OCCUPIED)%string then
            (ShowError "No active session.", d)
          else
            let line_items := fetch_active_session_orders table_id d in
            let orders_total := get_active_session_order_total table_id d in
            let '((time_charge, minutes), d') :=
              end_session now_start now_end now_close table_id d in
            let total := round2 (orders_total + time_charge) in
            (BillSummary (mk_bill (t_name table) (t_kind table) minutes time_charge
                            line_items total), d')
      end
  end.

Definition mark_out_of_order (selected_table_id : option Z) (d : db) : dialog * db :=
  match selected_table_id with
  | None => (ShowWarning "Please select a table.", d)
  | Some table_id => (NoDialog, mark_table_out_of_order table_id d)
  end.

End CafeApp.

(** The button presses that reach the database.  A press in a start or
    order window comes with the table the window was opened for. *)
Inductive ui_event : Type :=
| StartPressed (now table_id : Z) (session_type : string) (minutes : option Z)
| OrderPressed (table_id : Z) (selected_product_id : option Z) (qty_entry : entry_text)
| CloseBillPressed (now_start now_end now_close : Z) (selected_table_id : option Z)
| OutOfOrderPressed (selected_table_id : option Z).

Definition ui_step (d : db) (e : ui_event) : db :=
  match e with
  | StartPressed now table_id session_type minutes =>
      snd (SessionStartWindow.start_session now table_id session_type minutes d)
  | OrderPressed table_id selected_product_id qty_entry =>
      snd (OrderWindow.add_order table_id selected_product_id qty_entry d)
  | CloseBillPressed now_start now_end now_close selected_table_id =>
      snd (CafeApp.close_bill now_start now_end now_close selected_table_id d)
  | OutOfOrderPressed selected_table_id =>
      snd (CafeApp.mark_out_of_order selected_table_id d)
  end.

Definition ui_run (events : list ui_event) (d : db) : db := fold_left ui_step events d.

(** Every row of the table shows OutOfOrder. *)
Definition shows_out_of_order (table_id : Z) (d : db) : Prop :=
  forall r, In r (tables d) -> t_id r = table_id -> t_status r = STATUS_OUT_OF_ORDER.

Definition sessions_of (table_id : Z) (d : db) : list session_row :=
  filter (fun s => s_table_id s =? table_id) (sessions d).

(** * Rounding *)

Section Rounding.

#[local] Open Scope Q_scope.

Lemma floor_bounds (x : Q) :
  inject_Z (Qfloor x) <= x /\ x < inject_Z (Qfloor x) + 1.
Proof.
  split; [apply Qfloor_le|].
  pose proof (Qlt_floor x) as H. rewrite inject_Z_plus in H. exact H.
Qed.

(** The rounded value is within one half of the argument. *)
Lemma round_half_even_near (x : Q) :
  Qabs (x - inject_Z (round_half_even x)) <= 1 # 2.
Proof.
  apply Qabs_Qle_condition. unfold round_half_even.
  destruct (floor_bounds x) as [Hlo Hhi].
  destruct (Qcompare_spec (x - inject_Z (Qfloor x)) (1 # 2)) as [He|Hl|Hg].
  - destruct (Z.even (Qfloor x)); [|rewrite inject_Z_plus];
      change (inject_Z 1) with 1; split; lra.
  - split; lra.
  - rewrite inject_Z_plus. change (inject_Z 1) with 1. split; lra.
Qed.

Lemma round_half_even_floor (x : Q) :
  (Qfloor x <= round_half_even x <= Qfloor x + 1)%Z.
Proof.
  unfold round_half_even.
  destruct (Qcompare (x - inject_Z (Qfloor x)) (1 # 2)); [destruct (Z.even _)| |]; lia.
Qed.

Lemma round_half_even_comp (x y : Q) :
  x == y -> round_half_even x = round_half_even y.
Proof.
  intros E. unfold round_half_even. rewrite (Qfloor_comp _ _ E).
  assert (C : (x - inject_Z (Qfloor y) ?= 1 # 2) = (y - inject_Z (Qfloor y) ?= 1 # 2)).
  { apply Qcompare_comp; [rewrite E|]; reflexivity. }
  rewrite C. reflexivity.
Qed.

(** Rounding to the nearest integer never reverses an order. *)
Lemma round_half_even_mono (x y : Q) :
  x <= y -> (round_half_even x <= round_half_even y)%Z.
Proof.
  intros Hxy.
  pose proof (Qfloor_resp_le _ _ Hxy) as Hf.
  destruct (Z.eq_dec (Qfloor x) (Qfloor y)) as [E|N].
  - unfold round_half_even. rewrite E.
    destruct (Qcompare_spec (x - inject_Z (Qfloor y)) (1 # 2)) as [He|Hl|Hg];
      destruct (Qcompare_spec (y - inject_Z (Qfloor y)) (1 # 2)) as [He'|Hl'|Hg'];
      try destruct (Z.even (Qfloor y)); try lia; exfalso; lra.
  - pose proof (round_half_even_floor x). pose proof (round_half_even_floor y). lia.
Qed.

Lemma round_half_even_inject (n : Z) : round_half_even (inject_Z n) = n.
Proof.
  unfold round_half_even. rewrite Qfloor_Z.
  destruct (Qcompare_spec (inject_Z n - inject_Z n) (1 # 2)) as [He|Hl|Hg];
    [exfalso; lra | reflexivity | exfalso; lra].
Qed.

(** [round2] yields a whole number of hundredths, within half a
    hundredth of its argument. *)
Lemma round2_spec (x : Q) :
  exists cents : Z,
    round2 x = (cents # 100) /\ Qabs (x * 100 - inject_Z cents) <= 1 # 2.
Proof.
  exists (round_half_even (x * 100)). split; [reflexivity|].
  apply round_half_even_near.
Qed.

Lemma round2_mono (x y : Q) : x <= y -> round2 x <= round2 y.
Proof.
  intros H. unfold round2, Qle. simpl.
  apply Z.mul_le_mono_nonneg_r; [lia|].
  apply round_half_even_mono. lra.
Qed.

Lemma round2_comp (x y : Q) : x == y -> round2 x = round2 y.
Proof.
  intros E. unfold round2. f_equal. apply round_half_even_comp. rewrite E. reflexivity.
Qed.

End Rounding.

(** * Rows and keys *)

Section Rows.

Context {A : Type}.
Variables (p : A -> bool) (f : A -> A).

Lemma in_update_where (rows : list A) (r' : A) :
  In r' (update_where p f rows) <->
  exists r, In r rows /\ r' = (if p r then f r else r).
Proof.
  unfold update_where. rewrite in_map_iff.
  split; intros (r & H1 & H2); exists r; auto.
Qed.

Lemma nth_error_update_where (rows : list A) (i : nat) :
  nth_error (update_where p f rows) i =
  option_map (fun r => if p r then f r else r) (nth_error rows i).
Proof. unfold update_where. apply nth_error_map. Qed.

Lemma update_where_length (rows : list A) :
  List.length (update_where p f rows) = List.length rows.
Proof. unfold update_where. apply length_map. Qed.

Lemma find_none_filter (rows : list A) :
  find p rows = None -> filter p rows = [].
Proof.
  induction rows as [|r rows IH]; simpl; [reflexivity|].
  destruct (p r); [discriminate|exact IH].
Qed.

(** An update whose result never satisfies [q] unless the row already
    did cannot add rows to the selection by [q]. *)
Lemma filter_update_where_length (q : A -> bool) (rows : list A) :
  (forall r, q (f r) = true -> q r = true) ->
  (List.length (filter q (update_where p f rows)) <= List.length (filter q rows))%nat.
Proof.
  intros Hq. induction rows as [|r rows IH]; simpl; [lia|].
  destruct (p r).
  - destruct (q (f r)) eqn:E.
    + rewrite (Hq _ E). simpl. lia.
    + destruct (q r); simpl; lia.
  - destruct (q r); simpl; lia.
Qed.

End Rows.

Lemma pk_unique {A : Type} (key : A -> Z) (rows : list A) (a b : A) :
  NoDup (map key rows) -> In a rows -> In b rows -> key a = key b -> a = b.
Proof.
  induction rows as [|r rows IH]; simpl; [tauto|].
  intros Hnd Ha Hb E. inversion Hnd as [|k ks Hnotin Hnd']; subst.
  destruct Ha as [->|Ha], Hb as [->|Hb]; auto.
  - exfalso. apply Hnotin. rewrite E. apply in_map. exact Hb.
  - exfalso. apply Hnotin. rewrite <- E. apply in_map. exact Ha.
Qed.

Lemma find_by_id_some (product_id : Z) (rows : list product_row) (row : product_row) :
  find (fun p => p_id p =? product_id) rows = Some row ->
  In row rows /\ p_id row = product_id.
Proof.
  intros H. apply find_some in H. destruct H as [H1 H2].
  split; [exact H1|]. apply Z.eqb_eq. exact H2.
Qed.

(** * Orders and stock *)

Lemma add_order_inv (table_id product_id quantity : Z) (d : db) :
  add_order_outcome table_id product_id quantity d
    (add_order table_id product_id quantity d).
Proof.
  unfold add_order.
  destruct (fetch_active_session table_id d) as [session|] eqn:Hs;
    [|apply no_session; exact Hs].
  destruct (find _ (products d)) as [row|] eqn:Hp;
    [|eapply no_product; eauto].
  destruct (Z.ltb_spec (p_stock row) quantity) as [Hlt|Hge].
  - eapply no_stock; eauto.
  - eapply placed; eauto.
Qed.

Lemma update_where_keeps_key {A : Type} (key : A -> Z) (p : A -> bool) (f : A -> A)
    (rows : list A) :
  (forall r, key (f r) = key r) ->
  map key (update_where p f rows) = map key rows.
Proof.
  intros Hk. unfold update_where. rewrite map_map. apply map_ext.
  intros r. destruct (p r); [apply Hk|reflexivity].
Qed.

Lemma add_order_products_pk (table_id product_id quantity : Z) (d : db) :
  products_pk d -> products_pk (snd (add_order table_id product_id quantity d)).
Proof.
  intros Hpk. destruct (add_order_inv table_id product_id quantity d); simpl; auto.
  unfold products_pk. simpl. rewrite update_where_keeps_key; [exact Hpk|reflexivity].
Qed.

Lemma add_order_stock_nonneg (table_id product_id quantity : Z) (d : db) :
  products_pk d -> stock_nonneg d ->
  stock_nonneg (snd (add_order table_id product_id quantity d)).
Proof.
  intros Hpk Hnn.
  destruct (add_order_inv table_id product_id quantity d)
    as [Hs|s Hs Hp|s row Hs Hp Hlt|s row Hs Hp Hle]; simpl; auto.
  apply find_by_id_some in Hp. destruct Hp as [Hin Hid].
  intros p' Hp'. simpl in Hp'. apply in_update_where in Hp'.
  destruct Hp' as (p0 & Hin0 & ->).
  destruct (Z.eqb_spec (p_id p0) product_id) as [E|N].
  - assert (p0 = row) as -> by (apply (pk_unique p_id (products d)); auto; congruence).
    simpl. lia.
  - apply Hnn. exact Hin0.
Qed.

(** Distinct product ids and non-negative stocks hold of the seeded
    database and survive every operation. *)
Lemma seeded_db_products : products_pk seeded_db /\ stock_nonneg seeded_db.
Proof.
  split.
  - unfold products_pk. vm_compute.
    repeat (constructor; [simpl; intuition discriminate|]). constructor.
  - intros p Hp. vm_compute in Hp.
    repeat (destruct Hp as [<-|Hp]; [simpl; lia|]). destruct Hp.
Qed.

Lemma step_products (d : db) (op : operation) :
  products_pk d /\ stock_nonneg d ->
  products_pk (step d op) /\ stock_nonneg (step d op).
Proof.
  intros [Hpk Hnn].
  destruct op as [now t m|now t|t p q|ns ne nc t|t]; simpl.
  - unfold start_timed_session. destruct (fetch_active_session t d); auto.
  - unfold start_unlimited_session. destruct (fetch_active_session t d); auto.
  - split; [apply add_order_products_pk|apply add_order_stock_nonneg]; assumption.
  - unfold end_session. destruct (fetch_active_session t d); auto.
  - auto.
Qed.

Lemma run_products (ops : list operation) (d : db) :
  products_pk d /\ stock_nonneg d ->
  products_pk (run ops d) /\ stock_nonneg (run ops d).
Proof.
  revert d. unfold run. induction ops as [|op ops IH]; intros d H; simpl; [exact H|].
  apply IH. apply step_products. exact H.
Qed.

(** C1: on a database whose product stocks are all non-negative (and
    whose product ids are distinct, as the PRIMARY KEY makes them), an
    order that [add_order] inserts has a quantity no larger than the
    stock of its product at that moment, and after the call every
    stock is still non-negative. *)
Theorem add_order_respects_stock (table_id product_id quantity : Z) (d : db) :
  products_pk d ->
  stock_nonneg d ->
  let r := add_order table_id product_id quantity d in
  (fst r = true ->
   exists p o,
     In p (products d) /\ p_id p = product_id /\
     orders (snd r) = orders d ++ [o] /\
     o_product_id o = product_id /\ o_quantity o = quantity /\
     o_quantity o <= p_stock p)
  /\ stock_nonneg (snd r).
Proof.
  intros Hpk Hnn r. subst r.
  destruct (add_order_inv table_id product_id quantity d)
    as [Hs|s Hs Hp|s row Hs Hp Hlt|s row Hs Hp Hle]; simpl;
    try (split; [discriminate|exact Hnn]).
  split.
  - intros _. apply find_by_id_some in Hp. destruct Hp as [Hin Hid].
    exists row. eexists. repeat split; eauto.
  - pose proof (add_order_stock_nonneg table_id product_id quantity d Hpk Hnn) as H.
    unfold add_order in H. rewrite Hs, Hp in H.
    destruct (Z.ltb_spec (p_stock row) quantity); [lia|exact H].
Qed.

Lemma add_order_respects_stock_witness :
  let r := add_order 3 5 30 (start_unlimited_session 0 3 seeded_db) in
  (fst r = true ->
   exists p o,
     In p (products (start_unlimited_session 0 3 seeded_db)) /\ p_id p = 5 /\
     orders (snd r) = orders (start_unlimited_session 0 3 seeded_db) ++ [o] /\
     o_product_id o = 5 /\ o_quantity o = 30 /\
     o_quantity o <= p_stock p)
  /\ stock_nonneg (snd r).
Proof.
  apply (add_order_respects_stock 3 5 30 (start_unlimited_session 0 3 seeded_db)).
  - unfold products_pk. vm_compute.
    repeat (constructor; [simpl; intuition discriminate|]). constructor.
  - intros p Hp. vm_compute in Hp.
    repeat (destruct Hp as [<-|Hp]; [simpl; lia|]). destruct Hp.
Defined.

(** C5: [add_order] returns [False] exactly when the table has no
    active session, or the product does not exist, or its stock is
    strictly below the quantity; a [False] result leaves the database
    as it was; a [True] result does both things at once: it appends one
    order, for the active session, the product and the quantity asked,
    and it lowers the stock of the product by that quantity, every
    other column of every product, and the stock of every other
    product, staying what it was. *)
Theorem add_order_false_iff (table_id product_id quantity : Z) (d : db) :
  let r := add_order table_id product_id quantity d in
  (fst r = false <->
   fetch_active_session table_id d = None \/
   find (fun p => p_id p =? product_id) (products d) = None \/
   exists row, find (fun p => p_id p =? product_id) (products d) = Some row /\
               p_stock row < quantity)
  /\ (fst r = false -> snd r = d)
  /\ (fst r = true ->
      exists session row o,
        fetch_active_session table_id d = Some session /\
        find (fun p => p_id p =? product_id) (products d) = Some row /\
        quantity <= p_stock row /\
        orders (snd r) = orders d ++ [o] /\
        o_session_id o = s_id session /\ o_product_id o = product_id /\
        o_quantity o = quantity /\
        tables (snd r) = tables d /\ sessions (snd r) = sessions d /\
        List.length (products (snd r)) = List.length (products d) /\
        forall i p, nth_error (products d) i = Some p ->
          exists p',
            nth_error (products (snd r)) i = Some p' /\
            p_id p' = p_id p /\ p_name p' = p_name p /\
            p_category p' = p_category p /\ p_price p' = p_price p /\
            p_stock p' = if p_id p =? product_id
                         then p_stock p - quantity else p_stock p).
Proof.
  intros r. subst r.
  destruct (add_order_inv table_id product_id quantity d)
    as [Hs|s Hs Hp|s row Hs Hp Hlt|s row Hs Hp Hle]; simpl.
  - repeat split; auto; discriminate.
  - repeat split; auto; discriminate.
  - repeat split; auto; try discriminate. intros _. right. right. eauto.
  - split; [|split]; try discriminate.
    + split; [discriminate|].
      intros [H|[H|(row' & H & Hlt)]]; try congruence.
      assert (row' = row) by congruence. subst. lia.
    + intros _. exists s, row. eexists.
      split; [exact Hs|]. split; [exact Hp|]. split; [exact Hle|].
      split; [reflexivity|]. simpl. repeat (split; [reflexivity|]).
      split; [apply update_where_length|].
      intros i p Hi. rewrite nth_error_update_where, Hi. simpl.
      destruct (p_id p =? product_id); eexists; (split; [reflexivity|]);
        simpl; repeat split; reflexivity.
Qed.

Lemma add_order_false_iff_witness :
  let d := start_unlimited_session 0 3 seeded_db in
  exists p',
    nth_error (products (snd (add_order 3 5 4 d))) 4 = Some p' /\
    p_id p' = 5 /\ p_stock p' = 30 - 4 /\
    List.length (orders (snd (add_order 3 5 4 d))) = 1%nat.
Proof.
  intros d.
  destruct (proj2 (proj2 (add_order_false_iff 3 5 4 d)) eq_refl)
    as (session & row & o & _ & _ & _ & Ho & _ & _ & _ & _ & _ & _ & Hrows).
  destruct (Hrows 4%nat _ eq_refl) as (p' & H1 & H2 & _ & _ & _ & H3).
  exists p'. split; [exact H1|]. split; [exact H2|]. split; [exact H3|].
  rewrite Ho. reflexivity.
Defined.

Lemma step_orders_extend (d : db) (op : operation) :
  exists later, orders (step d op) = orders d ++ later.
Proof.
  destruct op as [now t m|now t|t p q|ns ne nc t|t]; simpl.
  - unfold start_timed_session. destruct (fetch_active_session t d);
      exists []; simpl; rewrite app_nil_r; reflexivity.
  - unfold start_unlimited_session. destruct (fetch_active_session t d);
      exists []; simpl; rewrite app_nil_r; reflexivity.
  - destruct (add_order_inv t p q d); simpl;
      try (exists []; rewrite app_nil_r; reflexivity).
    eexists. reflexivity.
  - unfold end_session. destruct (fetch_active_session t d);
      exists []; simpl; rewrite app_nil_r; reflexivity.
  - exists []. simpl. rewrite app_nil_r. reflexivity.
Qed.

Lemma events_orders_extend (events : list event) (d : db) :
  exists later, orders (fold_left apply_event events d) = orders d ++ later.
Proof.
  revert d. induction events as [|e events IH]; intros d; simpl.
  - exists []. rewrite app_nil_r. reflexivity.
  - destruct (IH (apply_event d e)) as [l2 H2].
    assert (exists l1, orders (apply_event d e) = orders d ++ l1) as [l1 H1].
    { destruct e as [op|f]; simpl; [apply step_orders_extend|].
      exists []. rewrite app_nil_r. reflexivity. }
    exists (l1 ++ l2). rewrite H2, H1, app_assoc. reflexivity.
Qed.

(** C4: the amount stored by a successful [add_order] is the price the
    product has at that moment times the quantity, and the stored row
    stays as it is through every later operation and every later change
    of prices; the order total read back for a table does not look at
    the prices either. *)
Theorem order_amount_fixed_at_order_time
    (table_id product_id quantity : Z) (d d' : db) :
  add_order table_id product_id quantity d = (true, d') ->
  exists row o,
    find (fun p => p_id p =? product_id) (products d) = Some row /\
    orders d' = orders d ++ [o] /\
    o_quantity o = quantity /\
    o_amount o = (p_price row * inject_Z quantity)%Q /\
    (forall events,
       nth_error (orders (fold_left apply_event events d')) (List.length (orders d))
       = Some o) /\
    (forall f t, get_active_session_order_total t (reprice f d')
                 = get_active_session_order_total t d').
Proof.
  intros H.
  destruct (add_order_inv table_id product_id quantity d)
    as [Hs|s Hs Hp|s row Hs Hp Hlt|s row Hs Hp Hle]; try discriminate.
  injection H as <-. exists row. eexists. repeat split; eauto.
  intros events. destruct (events_orders_extend events
    (mk_db (tables d) (sessions d)
       (update_where (fun p => p_id p =? product_id)
          (fun p => set_stock (p_stock p - quantity) p) (products d))
       (orders d ++
          [mk_order (next_id (map o_id (orders d))) (s_id s) product_id quantity
             (p_price row * inject_Z quantity)%Q]))) as [later Hl].
  rewrite Hl. simpl. rewrite <- app_assoc. rewrite nth_error_app2 by lia.
  rewrite Nat.sub_diag. reflexivity.
Qed.

Lemma order_amount_fixed_at_order_time_witness :
  exists row o,
    find (fun p => p_id p =? 8) (products (start_timed_session 0 2 60 seeded_db)) = Some row /\
    orders (snd (add_order 2 8 3 (start_timed_session 0 2 60 seeded_db)))
    = orders (start_timed_session 0 2 60 seeded_db) ++ [o] /\
    o_quantity o = 3 /\
    o_amount o = (p_price row * inject_Z 3)%Q /\
    (forall events,
       nth_error (orders (fold_left apply_event events
                            (snd (add_order 2 8 3 (start_timed_session 0 2 60 seeded_db)))))
                 (List.length (orders (start_timed_session 0 2 60 seeded_db)))
       = Some o) /\
    (forall f t,
       get_active_session_order_total t
         (reprice f (snd (add_order 2 8 3 (start_timed_session 0 2 60 seeded_db))))
       = get_active_session_order_total t
           (snd (add_order 2 8 3 (start_timed_session 0 2 60 seeded_db)))).
Proof.
  apply (order_amount_fixed_at_order_time 2 8 3 (start_timed_session 0 2 60 seeded_db)).
  reflexivity.
Defined.

(** C10: on a table without active session [end_session] returns
    [(0.0, 0)] and the database is the one it was given. *)
Theorem end_session_without_session
    (now_start now_end now_close table_id : Z) (d : db) :
  fetch_active_session table_id d = None ->
  end_session now_start now_end now_close table_id d = ((0%Q, 0), d).
Proof. intros H. unfold end_session. rewrite H. reflexivity. Qed.

Lemma end_session_without_session_witness :
  end_session 5 6 7 4 seeded_db = ((0%Q, 0), seeded_db).
Proof. apply (end_session_without_session 5 6 7 4 seeded_db). reflexivity. Defined.

(** * Sessions *)

Lemma is_active_set_end_ts (table_id ts : Z) (s : session_row) :
  is_active table_id (set_end_ts ts s) = false.
Proof. unfold is_active. simpl. apply andb_false_r. Qed.

Lemma insert_session_one_open (table_id now : Z) (kind : string)
    (planned : option Z) (rate : Q) (d : db) :
  fetch_active_session table_id d = None ->
  at_most_one_open d ->
  at_most_one_open (insert_session table_id now kind planned rate d).
Proof.
  intros Hnone Hinv t. simpl. rewrite filter_app, length_app. simpl.
  unfold is_active at 2. simpl.
  destruct (Z.eqb_spec table_id t) as [->|N]; simpl.
  - unfold fetch_active_session in Hnone.
    rewrite (find_none_filter _ _ Hnone). simpl. lia.
  - specialize (Hinv t). lia.
Qed.

Lemma step_one_open (d : db) (op : operation) :
  at_most_one_open d -> at_most_one_open (step d op).
Proof.
  intros Hinv.
  destruct op as [now t m|now t|t p q|ns ne nc t|t]; simpl.
  - unfold start_timed_session.
    destruct (fetch_active_session t d) eqn:E; [exact Hinv|].
    apply insert_session_one_open; assumption.
  - unfold start_unlimited_session.
    destruct (fetch_active_session t d) eqn:E; [exact Hinv|].
    apply insert_session_one_open; assumption.
  - destruct (add_order_inv t p q d); simpl; exact Hinv.
  - unfold end_session.
    destruct (fetch_active_session t d) as [s|] eqn:E; simpl; [|exact Hinv].
    intros t'. simpl.
    eapply Nat.le_trans; [apply filter_update_where_length|apply Hinv].
    intros r Hr. rewrite is_active_set_end_ts in Hr. discriminate.
  - exact Hinv.
Qed.

(** C3: every sequence of operations keeps at most one open session
    for each table, and starting a session on a table that has an
    active one returns the database as it was. *)
Theorem one_open_session_per_table (ops : list operation) (d : db) :
  at_most_one_open d ->
  at_most_one_open (run ops d) /\
  (forall now table_id minutes,
     fetch_active_session table_id (run ops d) <> None ->
     start_timed_session now table_id minutes (run ops d) = run ops d /\
     start_unlimited_session now table_id (run ops d) = run ops d).
Proof.
  intros Hinv. split.
  - revert d Hinv. unfold run.
    induction ops as [|op ops IH]; intros d Hinv; simpl; [exact Hinv|].
    apply IH. apply step_one_open. exact Hinv.
  - intros now t m H. unfold start_timed_session, start_unlimited_session.
    destruct (fetch_active_session t (run ops d)); [split; reflexivity|congruence].
Qed.

Lemma one_open_session_per_table_witness :
  at_most_one_open
    (run [StartUnlimited 0 1; StartTimed 1000000 1 60; AddOrder 1 2 4;
          EndSession 0 7200000000 7200000000 1; StartTimed 7300000000 1 30]
       seeded_db) /\
  (forall now table_id minutes,
     fetch_active_session table_id
       (run [StartUnlimited 0 1; StartTimed 1000000 1 60; AddOrder 1 2 4;
             EndSession 0 7200000000 7200000000 1; StartTimed 7300000000 1 30]
          seeded_db) <> None ->
     start_timed_session now table_id minutes
       (run [StartUnlimited 0 1; StartTimed 1000000 1 60; AddOrder 1 2 4;
             EndSession 0 7200000000 7200000000 1; StartTimed 7300000000 1 30]
          seeded_db)
     = run [StartUnlimited 0 1; StartTimed 1000000 1 60; AddOrder 1 2 4;
            EndSession 0 7200000000 7200000000 1; StartTimed 7300000000 1 30]
         seeded_db /\
     start_unlimited_session now table_id
       (run [StartUnlimited 0 1; StartTimed 1000000 1 60; AddOrder 1 2 4;
             EndSession 0 7200000000 7200000000 1; StartTimed 7300000000 1 30]
          seeded_db)
     = run [StartUnlimited 0 1; StartTimed 1000000 1 60; AddOrder 1 2 4;
            EndSession 0 7200000000 7200000000 1; StartTimed 7300000000 1 30]
         seeded_db).
Proof.
  apply (one_open_session_per_table
           [StartUnlimited 0 1; StartTimed 1000000 1 60; AddOrder 1 2 4;
            EndSession 0 7200000000 7200000000 1; StartTimed 7300000000 1 30]
           seeded_db).
  intros t. simpl. lia.
Defined.

Lemma step_keeps_ended (d : db) (op : operation) (i : nat) (s : session_row) :
  nth_error (sessions d) i = Some s ->
  s_end_ts s <> None ->
  exists s', nth_error (sessions (step d op)) i = Some s' /\
             s_id s' = s_id s /\ s_end_ts s' <> None.
Proof.
  intros Hi Hended.
  assert (Hlt : (i < List.length (sessions d))%nat)
    by (apply nth_error_Some; congruence).
  destruct op as [now t m|now t|t p q|ns ne nc t|t]; simpl.
  - unfold start_timed_session. destruct (fetch_active_session t d); simpl.
    + exists s. auto.
    + rewrite nth_error_app1 by exact Hlt. exists s. auto.
  - unfold start_unlimited_session. destruct (fetch_active_session t d); simpl.
    + exists s. auto.
    + rewrite nth_error_app1 by exact Hlt. exists s. auto.
  - destruct (add_order_inv t p q d); simpl; exists s; auto.
  - unfold end_session. destruct (fetch_active_session t d) as [a|]; simpl.
    + rewrite nth_error_update_where, Hi. simpl.
      destruct (s_id s =? s_id a).
      * eexists. split; [reflexivity|]. simpl. split; [reflexivity|discriminate].
      * exists s. auto.
    + exists s. auto.
  - exists s. auto.
Qed.

Lemma run_keeps_ended (ops : list operation) (d : db) (i : nat) (s : session_row) :
  nth_error (sessions d) i = Some s ->
  s_end_ts s <> None ->
  exists s', nth_error (sessions (run ops d)) i = Some s' /\
             s_id s' = s_id s /\ s_end_ts s' <> None.
Proof.
  revert d s. unfold run.
  induction ops as [|op ops IH]; intros d s Hi Hended; simpl.
  - exists s. auto.
  - destruct (step_keeps_ended d op i s Hi Hended) as (s1 & H1 & Hid & He).
    destruct (IH _ _ H1 He) as (s2 & H2 & Hid2 & He2).
    exists s2. repeat split; auto. congruence.
Qed.

(** C7: when a table has an active session, after [end_session] that
    session, and every row carrying its id, has an end timestamp; and
    no sequence of operations, from any database, takes a session that
    has an end timestamp back to having none. *)
Theorem end_session_sets_end_ts
    (now_start now_end now_close table_id : Z) (d : db) (s : session_row) :
  fetch_active_session table_id d = Some s ->
  let d' := snd (end_session now_start now_end now_close table_id d) in
  (exists i,
     nth_error (sessions d) i = Some s /\
     nth_error (sessions d') i = Some (set_end_ts (isoformat_seconds now_close) s)) /\
  (forall s', In s' (sessions d') -> s_id s' = s_id s -> s_end_ts s' <> None) /\
  (forall ops d0 i s0,
     nth_error (sessions d0) i = Some s0 ->
     s_end_ts s0 <> None ->
     exists s1, nth_error (sessions (run ops d0)) i = Some s1 /\
                s_id s1 = s_id s0 /\ s_end_ts s1 <> None).
Proof.
  intros Hs d'. subst d'. unfold end_session. rewrite Hs. simpl.
  split; [|split].
  - unfold fetch_active_session in Hs. apply find_some in Hs.
    destruct Hs as [Hin _]. apply In_nth_error in Hin. destruct Hin as [i Hi].
    exists i. split; [exact Hi|].
    rewrite nth_error_update_where, Hi. simpl. rewrite Z.eqb_refl. reflexivity.
  - intros s' Hin Hid. apply in_update_where in Hin.
    destruct Hin as (r & _ & ->).
    destruct (Z.eqb_spec (s_id r) (s_id s)) as [E|N]; [discriminate|].
    contradiction.
  - intros ops d0 i s0. apply run_keeps_ended.
Qed.

Lemma end_session_sets_end_ts_witness :
  exists s,
    fetch_active_session 9 (start_unlimited_session 12500000 9 seeded_db) = Some s /\
    s_end_ts s = None /\
    forall s',
      In s' (sessions (snd (end_session 0 600000000 600500000 9
                              (start_unlimited_session 12500000 9 seeded_db)))) ->
      s_id s' = s_id s -> s_end_ts s' <> None.
Proof.
  eexists. split; [reflexivity|]. split; [reflexivity|].
  apply (end_session_sets_end_ts 0 600000000 600500000 9
           (start_unlimited_session 12500000 9 seeded_db)).
  reflexivity.
Defined.

(** * Table status *)

Lemma insert_session_status (table_id now : Z) (kind : string)
    (planned : option Z) (rate : Q) (d : db) (i : nat) (r : table_row) :
  nth_error (tables d) i = Some r ->
  nth_error (tables (insert_session table_id now kind planned rate d)) i =
  Some (if t_id r =? table_id then set_status STATUS_OCCUPIED r else r).
Proof. intros Hi. simpl. rewrite nth_error_update_where, Hi. reflexivity. Qed.

(** C9: starting a session on a table without active session leaves
    the table with status Occupied, and ending the active session of a
    table leaves it OutOfOrder when its out-of-order flag is 1 and
    Empty otherwise; rows of other tables keep their status. *)
Theorem session_operations_set_status (table_id : Z) (d : db) (i : nat) (r : table_row) :
  nth_error (tables d) i = Some r ->
  (fetch_active_session table_id d = None ->
   forall now minutes,
     (exists r', nth_error (tables (start_timed_session now table_id minutes d)) i = Some r' /\
                 t_id r' = t_id r /\ t_is_out_of_order r' = t_is_out_of_order r /\
                 t_status r' = if t_id r =? table_id then STATUS_OCCUPIED else t_status r) /\
     (exists r', nth_error (tables (start_unlimited_session now table_id d)) i = Some r' /\
                 t_id r' = t_id r /\ t_is_out_of_order r' = t_is_out_of_order r /\
                 t_status r' = if t_id r =? table_id then STATUS_OCCUPIED else t_status r))
  /\
  (fetch_active_session table_id d <> None ->
   forall now_start now_end now_close,
     exists r',
       nth_error (tables (snd (end_session now_start now_end now_close table_id d))) i
       = Some r' /\
       t_id r' = t_id r /\ t_is_out_of_order r' = t_is_out_of_order r /\
       t_status r' =
         if t_id r =? table_id
         then (if t_is_out_of_order r =? 1 then STATUS_OUT_OF_ORDER else STATUS_EMPTY)
         else t_status r).
Proof.
  intros Hi. split.
  - intros Hnone now minutes.
    unfold start_timed_session, start_unlimited_session. rewrite Hnone.
    split; eexists; (split; [apply insert_session_status; exact Hi|]);
      destruct (t_id r =? table_id); simpl; auto.
  - intros Hsome ns ne nc. unfold end_session.
    destruct (fetch_active_session table_id d) as [s|]; [|congruence]. simpl.
    rewrite nth_error_update_where, Hi. simpl.
    eexists. split; [reflexivity|].
    destruct (t_id r =? table_id); simpl; auto.
Qed.

Lemma session_operations_set_status_witness :
  (exists r',
     nth_error (tables (start_timed_session 0 6 120 seeded_db)) 5 = Some r' /\
     t_id r' = 6 /\ t_is_out_of_order r' = 0 /\ t_status r' = STATUS_OCCUPIED) /\
  (exists r r',
     nth_error (tables (mark_table_out_of_order 2 (start_unlimited_session 0 2 seeded_db))) 1
     = Some r /\
     nth_error
       (tables (snd (end_session 0 180000000 180000000 2
                       (mark_table_out_of_order 2 (start_unlimited_session 0 2 seeded_db)))))
       1 = Some r' /\
     t_id r' = t_id r /\ t_is_out_of_order r' = t_is_out_of_order r /\
     t_status r' = STATUS_OUT_OF_ORDER).
Proof.
  split.
  - destruct (proj1 (proj1 (session_operations_set_status 6 seeded_db 5 _ eq_refl)
                       eq_refl 0 120))
      as (r' & H1 & H2 & H3 & H4).
    exists r'. repeat split; assumption.
  - eexists.
    destruct (proj2 (session_operations_set_status 2
                (mark_table_out_of_order 2 (start_unlimited_session 0 2 seeded_db)) 1 _
                eq_refl) ltac:(discriminate) 0 180000000 180000000)
      as (r' & H1 & H2 & H3 & H4).
    exists r'. split; [reflexivity|]. repeat split; assumption.
Defined.

(** * The time charge *)

Lemma round_half_even_nearest_minute (delta : Z) :
  nearest_minute delta (round_half_even (total_seconds delta / 60)).
Proof.
  unfold nearest_minute.
  pose proof (round_half_even_near (total_seconds delta / 60)) as H.
  set (m := round_half_even (total_seconds delta / 60)) in *.
  apply Qabs_Qle_condition in H. destruct H as [Hlo Hhi].
  assert (E : (total_seconds delta / 60 * 60000000 == inject_Z delta)%Q).
  { unfold total_seconds, microseconds_per_second.
    change (inject_Z 1000000) with (1000000 # 1)%Q. field. }
  assert (Hlo' : (inject_Z (m * 60000000 - 30000000) <= inject_Z delta)%Q).
  { unfold Z.sub. rewrite inject_Z_plus, inject_Z_mult.
    change (inject_Z 60000000) with (60000000 # 1)%Q.
    change (inject_Z (- (30000000))) with (- (30000000 # 1))%Q. lra. }
  assert (Hhi' : (inject_Z delta <= inject_Z (m * 60000000 + 30000000))%Q).
  { rewrite inject_Z_plus, inject_Z_mult.
    change (inject_Z 60000000) with (60000000 # 1)%Q.
    change (inject_Z 30000000) with (30000000 # 1)%Q. lra. }
  rewrite <- Zle_Qle in Hlo', Hhi'. lia.
Qed.

(** The two branches of [_calculate_time_charge]. *)
Lemma time_charge_planned (now_start now_end m : Z) (s : session_row) :
  s_kind s = "Timed"%string ->
  s_planned_minutes s = Some m ->
  m <> 0 ->
  _calculate_time_charge now_start now_end s =
  (round2 (hourly_of s * (inject_Z m / 60)), m).
Proof.
  intros Hk Hp Hm. unfold _calculate_time_charge, hourly_of.
  rewrite Hk, Hp. simpl. destruct (Z.eqb_spec m 0); [contradiction|reflexivity].
Qed.

Lemma time_charge_elapsed (now_start now_end : Z) (s : session_row) :
  s_kind s <> "Timed"%string \/
  s_planned_minutes s = None \/ s_planned_minutes s = Some 0 ->
  _calculate_time_charge now_start now_end s =
  (round2 (hourly_of s * (inject_Z (elapsed_minutes (session_start now_start s) now_end) / 60)),
   elapsed_minutes (session_start now_start s) now_end).
Proof.
  intros H. unfold _calculate_time_charge, hourly_of, elapsed_minutes, session_start.
  assert (G : ((s_kind s =? "Timed")%string && truthy (s_planned_minutes s)) = false).
  { destruct H as [H|[H|H]].
    - apply String.eqb_neq in H. rewrite H. reflexivity.
    - rewrite H. apply andb_false_r.
    - rewrite H. apply andb_false_r. }
  rewrite G.
  set (e := round_half_even _).
  destruct (Z.ltb_spec e 1) as [Hlt|Hge].
  - rewrite Z.max_l by lia. reflexivity.
  - rewrite Z.max_r by lia. reflexivity.
Qed.

Lemma planned_or_elapsed (s : session_row) :
  (exists m, s_kind s = "Timed"%string /\ s_planned_minutes s = Some m /\ m <> 0) \/
  (s_kind s <> "Timed"%string \/
   s_planned_minutes s = None \/ s_planned_minutes s = Some 0).
Proof.
  destruct (String.eqb_spec (s_kind s) "Timed") as [Hk|Hk]; [|auto].
  destruct (s_planned_minutes s) as [m|]; [|auto].
  destruct (Z.eq_dec m 0) as [->|Hm]; [auto|].
  left. exists m. auto.
Qed.

Lemma time_charge_formula (now_start now_end : Z) (s : session_row) :
  fst (_calculate_time_charge now_start now_end s) =
  round2 (hourly_of s * (inject_Z (snd (_calculate_time_charge now_start now_end s)) / 60)).
Proof.
  destruct (planned_or_elapsed s) as [(m & Hk & Hp & Hm)|H].
  - rewrite (time_charge_planned _ _ m) by assumption. reflexivity.
  - rewrite time_charge_elapsed by assumption. reflexivity.
Qed.

(** C2, as the code has it: the pair returned at close is the one
    [_calculate_time_charge] computes for the active session; the
    charge is the hourly rate times the billed minutes over 60, rounded
    to hundredths; the billed minutes of a Timed session with a
    non-zero planned duration are that duration, unchanged; the billed
    minutes of every other session are the minutes elapsed from start
    to close, rounded to the nearest minute, and at least 1. *)
Theorem charge_at_close
    (now_start now_end now_close table_id : Z) (d : db) (s : session_row) :
  fetch_active_session table_id d = Some s ->
  let r := fst (end_session now_start now_end now_close table_id d) in
  r = _calculate_time_charge now_start now_end s /\
  is_charge (hourly_of s) (snd r) (fst r) /\
  (forall m, s_kind s = "Timed"%string -> s_planned_minutes s = Some m -> m <> 0 ->
             snd r = m) /\
  (s_kind s <> "Timed"%string \/
   s_planned_minutes s = None \/ s_planned_minutes s = Some 0 ->
   1 <= snd r /\
   exists e, nearest_minute (now_end - session_start now_start s) e /\
             snd r = Z.max 1 e).
Proof.
  intros Hs r. subst r. unfold end_session. rewrite Hs. simpl.
  split; [reflexivity|]. split; [|split].
  - rewrite time_charge_formula. apply round2_spec.
  - intros m Hk Hp Hm. rewrite (time_charge_planned _ _ m) by assumption. reflexivity.
  - intros H. rewrite time_charge_elapsed by assumption. simpl.
    unfold elapsed_minutes. split; [lia|].
    eexists. split; [apply round_half_even_nearest_minute|reflexivity].
Qed.

Lemma charge_at_close_witness :
  let d := start_unlimited_session 0 7 seeded_db in
  exists s,
    fetch_active_session 7 d = Some s /\
    fst (end_session 0 5430000000 5431000000 7 d) = ((3000 # 100)%Q, 90) /\
    is_charge (hourly_of s) 90 (3000 # 100)%Q.
Proof.
  intros d. eexists. split; [reflexivity|]. split; [reflexivity|].
  exact (proj1 (proj2 (charge_at_close 0 5430000000 5431000000 7 d _ eq_refl))).
Defined.

(** The claim C2 as it is written fails on Timed sessions: with a
    planned duration of 0 the elapsed minutes are billed, not the
    planned ones, and with a negative planned duration fewer than one
    minute is billed and the charge is negative. *)
Lemma charge_at_close_counterexample :
  (exists s,
     fetch_active_session 1 (start_timed_session 0 1 0 seeded_db) = Some s /\
     s_kind s = "Timed"%string /\ s_planned_minutes s = Some 0 /\
     fst (end_session 0 5400000000 5400000000 1 (start_timed_session 0 1 0 seeded_db))
     = ((4500 # 100)%Q, 90) /\
     90 <> Z.max 1 0) /\
  (exists s,
     fetch_active_session 1 (start_timed_session 0 1 (-30) seeded_db) = Some s /\
     s_kind s = "Timed"%string /\ s_planned_minutes s = Some (-30) /\
     fst (end_session 0 5400000000 5400000000 1 (start_timed_session 0 1 (-30) seeded_db))
     = ((-1500 # 100)%Q, -30) /\
     ~ 1 <= -30).
Proof.
  split; eexists; repeat split; try reflexivity; lia.
Qed.

Lemma time_charge_minutes (now_start now_end : Z) (s : session_row) :
  snd (_calculate_time_charge now_start now_end s) = billed_minutes now_start now_end s.
Proof.
  unfold billed_minutes.
  destruct (planned_or_elapsed s) as [(m & Hk & Hp & Hm)|H].
  - rewrite (time_charge_planned _ _ m) by assumption. rewrite Hp, Hk. simpl.
    destruct (Z.eqb_spec m 0); [contradiction|reflexivity].
  - rewrite time_charge_elapsed by assumption. simpl.
    destruct H as [H|[H|H]].
    + apply String.eqb_neq in H. rewrite H.
      destruct (s_planned_minutes s); reflexivity.
    + rewrite H. reflexivity.
    + rewrite H. rewrite andb_false_r. reflexivity.
Qed.

Lemma charge_by_minutes (rate1 rate2 : Q) (m1 m2 : Z) :
  (rate1 == rate2)%Q -> (0 <= rate1)%Q -> m1 <= m2 ->
  (round2 (rate1 * (inject_Z m1 / 60)) <= round2 (rate2 * (inject_Z m2 / 60)))%Q.
Proof.
  intros Hrate Hnn Hle.
  apply round2_mono. rewrite <- Hrate.
  rewrite Zle_Qle in Hle.
  rewrite (Qmult_comm _ (inject_Z m1 / 60)), (Qmult_comm _ (inject_Z m2 / 60)).
  apply Qmult_le_compat_r; [|exact Hnn].
  unfold Qdiv. apply Qmult_le_compat_r; [exact Hle|discriminate].
Qed.

Lemma elapsed_minutes_le (start1 end1 start2 end2 : Z) :
  end1 - start1 <= end2 - start2 ->
  elapsed_minutes start1 end1 <= elapsed_minutes start2 end2.
Proof.
  intros H. unfold elapsed_minutes.
  apply Z.max_le_compat_l. apply round_half_even_mono.
  unfold total_seconds, Qdiv.
  apply Qmult_le_compat_r; [|discriminate].
  apply Qmult_le_compat_r; [|discriminate].
  rewrite <- Zle_Qle. exact H.
Qed.

(** C6, as the code has it: the charge is monotone in the billed
    minutes, which are the planned duration for a Timed session with a
    non-zero planned duration and the elapsed minutes (rounded, at
    least 1) for every other session.  For two sessions with the same
    non-negative hourly rate, the one with at least as many billed
    minutes has at least as large a charge, rounding included; in
    particular so do, of two Timed sessions with non-zero planned
    durations, the one planned longer, and of two sessions billed by
    the clock, the one open longer. *)
Theorem charge_monotone
    (now_start1 now_end1 now_start2 now_end2 : Z) (s1 s2 : session_row) :
  (hourly_of s1 == hourly_of s2)%Q ->
  (0 <= hourly_of s1)%Q ->
  (billed_minutes now_start1 now_end1 s1 <= billed_minutes now_start2 now_end2 s2 ->
   (fst (_calculate_time_charge now_start1 now_end1 s1)
    <= fst (_calculate_time_charge now_start2 now_end2 s2))%Q) /\
  (forall m1 m2,
     s_kind s1 = "Timed"%string -> s_planned_minutes s1 = Some m1 -> m1 <> 0 ->
     s_kind s2 = "Timed"%string -> s_planned_minutes s2 = Some m2 -> m2 <> 0 ->
     m1 <= m2 ->
     (fst (_calculate_time_charge now_start1 now_end1 s1)
      <= fst (_calculate_time_charge now_start2 now_end2 s2))%Q) /\
  ((s_kind s1 <> "Timed"%string \/
    s_planned_minutes s1 = None \/ s_planned_minutes s1 = Some 0) ->
   (s_kind s2 <> "Timed"%string \/
    s_planned_minutes s2 = None \/ s_planned_minutes s2 = Some 0) ->
   now_end1 - session_start now_start1 s1 <= now_end2 - session_start now_start2 s2 ->
   (fst (_calculate_time_charge now_start1 now_end1 s1)
    <= fst (_calculate_time_charge now_start2 now_end2 s2))%Q).
Proof.
  intros Hrate Hnn. split; [|split].
  - intros Hle.
    rewrite (time_charge_formula now_start1), (time_charge_formula now_start2).
    rewrite !time_charge_minutes. apply charge_by_minutes; assumption.
  - intros m1 m2 Hk1 Hp1 Hm1 Hk2 Hp2 Hm2 Hle.
    rewrite (time_charge_planned _ _ m1), (time_charge_planned _ _ m2) by assumption.
    simpl. apply charge_by_minutes; assumption.
  - intros H1 H2 Hle. rewrite !time_charge_elapsed by assumption. simpl.
    apply charge_by_minutes; try assumption. apply elapsed_minutes_le. exact Hle.
Qed.

Lemma charge_monotone_witness :
  let timed := mk_session 1 6 (Some 0) None "Timed" (Some 60) (Some 20%Q) in
  let unlimited := mk_session 2 7 (Some 10) None "Unlimited" None (Some 20%Q) in
  let longer := mk_session 3 8 (Some 0) None "Timed" (Some 120) (Some 20%Q) in
  (fst (_calculate_time_charge 0 999 timed)
   <= fst (_calculate_time_charge 0 5410000000 unlimited))%Q /\
  (fst (_calculate_time_charge 0 999 timed)
   <= fst (_calculate_time_charge 0 5 longer))%Q.
Proof.
  intros timed unlimited longer. split.
  - apply (proj1 (charge_monotone 0 999 0 5410000000 timed unlimited
                    ltac:(reflexivity) ltac:(discriminate))).
    vm_compute. discriminate.
  - apply (proj1 (proj2 (charge_monotone 0 999 0 5 timed longer
                           ltac:(reflexivity) ltac:(discriminate)))
             60 120); try reflexivity; try discriminate.
Defined.

(** The claim C6 as it is written, with the minutes of a Timed session
    read as its planned duration, fails: of two Timed sessions at the
    same rate, one started with a planned duration of 0 and closed
    after 90 minutes, the other planned for 60 minutes, the one planned
    longer is charged less. *)
Lemma charge_monotone_counterexample :
  exists s1 s2,
    fetch_active_session 1 (start_timed_session 0 1 0 seeded_db) = Some s1 /\
    fetch_active_session 2 (start_timed_session 0 2 60 seeded_db) = Some s2 /\
    s_kind s1 = "Timed"%string /\ s_kind s2 = "Timed"%string /\
    hourly_of s1 = hourly_of s2 /\ (0 <= hourly_of s1)%Q /\
    s_planned_minutes s1 = Some 0 /\ s_planned_minutes s2 = Some 60 /\ 0 <= 60 /\
    _calculate_time_charge 0 5400000000 s1 = ((4500 # 100)%Q, 90) /\
    _calculate_time_charge 0 5400000000 s2 = ((3000 # 100)%Q, 60) /\
    ~ (fst (_calculate_time_charge 0 5400000000 s1)
       <= fst (_calculate_time_charge 0 5400000000 s2))%Q.
Proof.
  eexists. eexists.
  split; [reflexivity|]. split; [reflexivity|].
  repeat (split; [first [reflexivity | discriminate | lia]|]).
  vm_compute. intros H. apply H. reflexivity.
Qed.

(** C8, as the code has it: a Timed session with a non-zero planned
    duration is charged from that duration, whatever the clock reads at
    close; an Unlimited session, and a Timed one whose planned duration
    is missing or zero, is charged from the time elapsed between start
    and close. *)
Theorem billing_source (s : session_row) :
  (forall m,
     s_kind s = "Timed"%string -> s_planned_minutes s = Some m -> m <> 0 ->
     forall now_start now_end now_start' now_end',
       _calculate_time_charge now_start now_end s
       = (round2 (hourly_of s * (inject_Z m / 60)), m) /\
       _calculate_time_charge now_start now_end s
       = _calculate_time_charge now_start' now_end' s)
  /\
  (s_kind s = "Unlimited"%string \/
   s_planned_minutes s = None \/ s_planned_minutes s = Some 0 ->
   forall now_start now_end,
     _calculate_time_charge now_start now_end s
     = (round2 (hourly_of s *
                (inject_Z (elapsed_minutes (session_start now_start s) now_end) / 60)),
        elapsed_minutes (session_start now_start s) now_end)).
Proof.
  split.
  - intros m Hk Hp Hm ns ne ns' ne'.
    rewrite !(time_charge_planned _ _ m) by assumption. split; reflexivity.
  - intros H ns ne. apply time_charge_elapsed.
    destruct H as [H|H]; [left; rewrite H; discriminate|right; exact H].
Qed.

Lemma billing_source_witness :
  (forall now_start now_end now_start' now_end',
     _calculate_time_charge now_start now_end
       (mk_session 1 3 (Some 0) None "Timed" (Some 120) (Some 30%Q))
     = (round2 (30 * (inject_Z 120 / 60)), 120) /\
     _calculate_time_charge now_start now_end
       (mk_session 1 3 (Some 0) None "Timed" (Some 120) (Some 30%Q))
     = _calculate_time_charge now_start' now_end'
         (mk_session 1 3 (Some 0) None "Timed" (Some 120) (Some 30%Q))) /\
  (forall now_start now_end,
     _calculate_time_charge now_start now_end
       (mk_session 2 8 (Some 0) None "Unlimited" None (Some 20%Q))
     = (round2 (20 * (inject_Z (elapsed_minutes 0 now_end) / 60)),
        elapsed_minutes 0 now_end)).
Proof.
  split.
  - apply (proj1 (billing_source
                    (mk_session 1 3 (Some 0) None "Timed" (Some 120) (Some 30%Q)))
             120 eq_refl eq_refl).
    discriminate.
  - apply (proj2 (billing_source
                    (mk_session 2 8 (Some 0) None "Unlimited" None (Some 20%Q)))).
    left. reflexivity.
Defined.

(** The claim C8 as it is written fails on a Timed session started
    with a planned duration of 0: its charge follows the clock. *)
Lemma billing_source_counterexample :
  exists s,
    fetch_active_session 1 (start_timed_session 0 1 0 seeded_db) = Some s /\
    s_kind s = "Timed"%string /\
    _calculate_time_charge 0 1800000000 s = ((1500 # 100)%Q, 30) /\
    _calculate_time_charge 0 5400000000 s = ((4500 # 100)%Q, 90) /\
    ~ (fst (_calculate_time_charge 0 1800000000 s)
       == fst (_calculate_time_charge 0 5400000000 s))%Q.
Proof.
  eexists. repeat split; try reflexivity. vm_compute. discriminate.
Qed.

(** * Lookups in a list of rows *)

Section Lookup.

Context {A : Type}.
Variable p : A -> bool.

Lemma find_app_none (l l' : list A) :
  find p l = None -> find p (l ++ l') = find p l'.
Proof.
  induction l as [|x l IH]; simpl; [reflexivity|].
  destruct (p x); [discriminate|exact IH].
Qed.

Lemma find_app_some (l l' : list A) (x : A) :
  find p l = Some x -> find p (l ++ l') = Some x.
Proof.
  induction l as [|y l IH]; simpl; [discriminate|].
  destruct (p y); [auto|exact IH].
Qed.

Lemma find_all_false (l : list A) :
  (forall x, In x l -> p x = false) -> find p l = None.
Proof.
  induction l as [|x l IH]; simpl; intros H; [reflexivity|].
  rewrite (H x) by auto. apply IH. intros y Hy. apply H. auto.
Qed.

Lemma find_in_some (l : list A) (x : A) :
  In x l -> p x = true -> find p l <> None.
Proof.
  intros Hin Hp Hnone. pose proof (find_none _ _ Hnone x Hin). congruence.
Qed.

Lemma update_where_none (f : A -> A) (l : list A) :
  find p l = None -> update_where p f l = l.
Proof.
  induction l as [|x l IH]; simpl; [reflexivity|].
  destruct (p x); [discriminate|]. intros H. rewrite IH by exact H. reflexivity.
Qed.

(** When at most one row satisfies [p], it is the one [find] returns. *)
Lemma find_only (l : list A) (a x : A) :
  (List.length (filter p l) <= 1)%nat ->
  find p l = Some a -> In x l -> p x = true -> x = a.
Proof.
  intros Hlen Hfind Hin Hp.
  apply find_some in Hfind. destruct Hfind as [Ha Hpa].
  assert (Ia : In a (filter p l)) by (apply filter_In; auto).
  assert (Ix : In x (filter p l)) by (apply filter_In; auto).
  destruct (filter p l) as [|y [|z l']]; simpl in *; try lia; try tauto.
  destruct Ia as [<-|[]], Ix as [<-|[]]. reflexivity.
Qed.

End Lookup.

Lemma fold_max_upper (l : list Z) (x : Z) : In x l -> x <= fold_right Z.max 0 l.
Proof.
  induction l as [|y l IH]; simpl; [tauto|].
  intros [->|H]; [lia|]. specialize (IH H). lia.
Qed.

(** A key handed out by AUTOINCREMENT is above every key in use. *)
Lemma next_id_fresh (ids : list Z) : ~ In (next_id ids) ids.
Proof.
  intros H. apply fold_max_upper in H. unfold next_id in H. lia.
Qed.

(** * Starting and ending sessions *)

Lemma fetch_after_insert (table_id now : Z) (kind : string) (planned : option Z)
    (rate : Q) (d : db) (t : Z) :
  fetch_active_session table_id d = None ->
  fetch_active_session t (insert_session table_id now kind planned rate d) =
  if t =? table_id
  then Some (mk_session (next_id (map s_id (sessions d))) table_id
               (Some (isoformat_seconds now)) None kind planned (Some rate))
  else fetch_active_session t d.
Proof.
  intros Hnone. unfold fetch_active_session in *. simpl.
  destruct (Z.eqb_spec t table_id) as [->|N].
  - rewrite find_app_none by exact Hnone. simpl.
    unfold is_active. simpl. rewrite Z.eqb_refl. reflexivity.
  - destruct (find (is_active t) (sessions d)) as [s|] eqn:E.
    + apply find_app_some. exact E.
    + rewrite find_app_none by exact E. simpl.
      unfold is_active. simpl.
      destruct (Z.eqb_spec table_id t); [congruence|reflexivity].
Qed.

(** A session started on a table without active session is the one
    [fetch_active_session] returns for that table afterwards, with the
    kind, planned duration, truncated start time and table rate it was
    started with; the active sessions of the other tables are the ones
    they were. *)
Theorem start_then_fetch (now table_id minutes : Z) (d : db) :
  fetch_active_session table_id d = None ->
  (exists s,
     fetch_active_session table_id (start_timed_session now table_id minutes d) = Some s /\
     s_table_id s = table_id /\ s_kind s = "Timed"%string /\
     s_planned_minutes s = Some minutes /\
     s_start_ts s = Some (now / 1000000) /\ s_end_ts s = None /\
     s_hourly_rate s = Some (get_hourly_rate table_id d)) /\
  (exists s,
     fetch_active_session table_id (start_unlimited_session now table_id d) = Some s /\
     s_table_id s = table_id /\ s_kind s = "Unlimited"%string /\
     s_planned_minutes s = None /\
     s_start_ts s = Some (now / 1000000) /\ s_end_ts s = None /\
     s_hourly_rate s = Some (get_hourly_rate table_id d)) /\
  (forall t, t <> table_id ->
     fetch_active_session t (start_timed_session now table_id minutes d)
     = fetch_active_session t d /\
     fetch_active_session t (start_unlimited_session now table_id d)
     = fetch_active_session t d).
Proof.
  intros Hnone. unfold start_timed_session, start_unlimited_session. rewrite Hnone.
  split; [|split].
  - eexists. rewrite fetch_after_insert by exact Hnone. rewrite Z.eqb_refl.
    split; [reflexivity|]. simpl. repeat split; reflexivity.
  - eexists. rewrite fetch_after_insert by exact Hnone. rewrite Z.eqb_refl.
    split; [reflexivity|]. simpl. repeat split; reflexivity.
  - intros t Ht. rewrite !fetch_after_insert by exact Hnone.
    destruct (Z.eqb_spec t table_id); [contradiction|]. split; reflexivity.
Qed.

Lemma start_then_fetch_witness :
  exists s,
    fetch_active_session 4 (start_timed_session 1234567 4 120 seeded_db) = Some s /\
    s_table_id s = 4 /\ s_kind s = "Timed"%string /\
    s_planned_minutes s = Some 120 /\
    s_start_ts s = Some (1234567 / 1000000) /\ s_end_ts s = None /\
    s_hourly_rate s = Some (get_hourly_rate 4 seeded_db).
Proof.
  apply (proj1 (start_then_fetch 1234567 4 120 seeded_db eq_refl)).
Defined.

(** The module does not check that the table exists: on an id that no
    table row carries, a session is inserted all the same, no table row
    changes, the rate captured is 0, and the charge at close is 0. *)
Theorem start_on_missing_table (now table_id minutes : Z) (d : db) :
  fetch_table table_id d = None ->
  fetch_active_session table_id d = None ->
  let d' := start_timed_session now table_id minutes d in
  tables d' = tables d /\
  List.length (sessions d') = S (List.length (sessions d)) /\
  (exists s, fetch_active_session table_id d' = Some s /\ s_hourly_rate s = Some 0%Q) /\
  (forall now_start now_end now_close,
     (fst (fst (end_session now_start now_end now_close table_id d')) == 0)%Q).
Proof.
  intros Htab Hnone d'. subst d'. unfold start_timed_session. rewrite Hnone.
  assert (Hrate : get_hourly_rate table_id d = 0%Q)
    by (unfold get_hourly_rate; rewrite Htab; reflexivity).
  rewrite Hrate. split; [|split; [|split]].
  - simpl. apply update_where_none. exact Htab.
  - simpl. rewrite length_app. simpl. lia.
  - eexists. rewrite fetch_after_insert by exact Hnone. rewrite Z.eqb_refl.
    split; reflexivity.
  - intros ns ne nc. unfold end_session.
    rewrite fetch_after_insert by exact Hnone. rewrite Z.eqb_refl. simpl.
    rewrite time_charge_formula. unfold hourly_of. simpl.
    unfold round2. rewrite (round_half_even_comp _ 0); [reflexivity|].
    rewrite !Qmult_0_l. reflexivity.
Qed.

Lemma start_on_missing_table_witness :
  tables (start_timed_session 0 99 60 seeded_db) = tables seeded_db /\
  List.length (sessions (start_timed_session 0 99 60 seeded_db))
  = S (List.length (sessions seeded_db)) /\
  (exists s, fetch_active_session 99 (start_timed_session 0 99 60 seeded_db) = Some s /\
             s_hourly_rate s = Some 0%Q) /\
  (forall now_start now_end now_close,
     (fst (fst (end_session now_start now_end now_close 99
                  (start_timed_session 0 99 60 seeded_db))) == 0)%Q).
Proof.
  apply (start_on_missing_table 0 99 60 seeded_db); reflexivity.
Defined.

Lemma fetch_after_end (now_start now_end now_close table_id : Z) (d : db) :
  at_most_one_open d ->
  fetch_active_session table_id
    (snd (end_session now_start now_end now_close table_id d)) = None.
Proof.
  intros Hinv. unfold end_session.
  destruct (fetch_active_session table_id d) as [a|] eqn:Ha; simpl; [|exact Ha].
  unfold fetch_active_session. simpl. apply find_all_false.
  intros s' Hin. apply in_update_where in Hin. destruct Hin as (r & Hr & ->).
  destruct (Z.eqb_spec (s_id r) (s_id a)) as [E|N].
  - apply is_active_set_end_ts.
  - destruct (is_active table_id r) eqn:Hact; [|reflexivity].
    exfalso. apply N. f_equal.
    apply (find_only (is_active table_id) (sessions d)); auto.
Qed.

(** On a database with at most one open session for each table, the
    table has no active session once [end_session] has run, so ending
    it a second time returns [(0.0, 0)] and changes nothing. *)
Theorem end_session_twice
    (now_start now_end now_close now_start' now_end' now_close' table_id : Z) (d : db) :
  at_most_one_open d ->
  let d' := snd (end_session now_start now_end now_close table_id d) in
  fetch_active_session table_id d' = None /\
  end_session now_start' now_end' now_close' table_id d' = ((0%Q, 0), d').
Proof.
  intros Hinv d'. subst d'.
  pose proof (fetch_after_end now_start now_end now_close table_id d Hinv) as H.
  split; [exact H|]. unfold end_session at 1. rewrite H. reflexivity.
Qed.

Lemma end_session_twice_witness :
  let d := start_unlimited_session 0 5 seeded_db in
  fetch_active_session 5 d <> None /\
  fetch_active_session 5 (snd (end_session 0 60000000 60000000 5 d)) = None /\
  end_session 1 2 3 5 (snd (end_session 0 60000000 60000000 5 d))
  = ((0%Q, 0), snd (end_session 0 60000000 60000000 5 d)).
Proof.
  intros d. split; [discriminate|].
  apply (end_session_twice 0 60000000 60000000 1 2 3 5 d).
  intros t. unfold d. simpl. unfold is_active. simpl.
  match goal with |- context [if ?b then _ else _] => destruct b end; simpl; lia.
Defined.

Lemma same_session_refl (s : session_row) : same_session s s.
Proof. unfold same_session. repeat split. Qed.

Lemma same_session_trans (s1 s2 s3 : session_row) :
  same_session s1 s2 -> same_session s2 s3 -> same_session s1 s3.
Proof. unfold same_session. intuition congruence. Qed.

Lemma step_same_session (d : db) (op : operation) (i : nat) (s : session_row) :
  nth_error (sessions d) i = Some s ->
  exists s', nth_error (sessions (step d op)) i = Some s' /\ same_session s s'.
Proof.
  intros Hi.
  assert (Hlt : (i < List.length (sessions d))%nat)
    by (apply nth_error_Some; congruence).
  destruct op as [now t m|now t|t p q|ns ne nc t|t]; simpl.
  - unfold start_timed_session. destruct (fetch_active_session t d); simpl.
    + exists s. split; [exact Hi|apply same_session_refl].
    + rewrite nth_error_app1 by exact Hlt. exists s. split; [exact Hi|apply same_session_refl].
  - unfold start_unlimited_session. destruct (fetch_active_session t d); simpl.
    + exists s. split; [exact Hi|apply same_session_refl].
    + rewrite nth_error_app1 by exact Hlt. exists s. split; [exact Hi|apply same_session_refl].
  - destruct (add_order_inv t p q d); simpl; exists s;
      (split; [exact Hi|apply same_session_refl]).
  - unfold end_session. destruct (fetch_active_session t d) as [a|]; simpl.
    + rewrite nth_error_update_where, Hi. simpl.
      destruct (s_id s =? s_id a); eexists; (split; [reflexivity|]).
      * unfold same_session. simpl. repeat split.
      * apply same_session_refl.
    + exists s. split; [exact Hi|apply same_session_refl].
  - exists s. split; [exact Hi|apply same_session_refl].
Qed.

(** No operation removes a session row or moves it, and none changes
    the table, start time, kind, planned duration or hourly rate that
    the row was inserted with: the rate charged is the one captured at
    the start. *)
Theorem session_fields_are_kept (ops : list operation) (d : db) (i : nat) (s : session_row) :
  nth_error (sessions d) i = Some s ->
  exists s', nth_error (sessions (run ops d)) i = Some s' /\ same_session s s'.
Proof.
  revert d s. unfold run. induction ops as [|op ops IH]; intros d s Hi; simpl.
  - exists s. split; [exact Hi|apply same_session_refl].
  - destruct (step_same_session d op i s Hi) as (s1 & H1 & S1).
    destruct (IH _ _ H1) as (s2 & H2 & S2).
    exists s2. split; [exact H2|]. eapply same_session_trans; eauto.
Qed.

Lemma session_fields_are_kept_witness :
  let d := start_timed_session 5000000 3 60 seeded_db in
  exists s s',
    nth_error (sessions d) 0 = Some s /\
    nth_error
      (sessions (run [AddOrder 3 1 2; MarkOutOfOrder 3; EndSession 0 9 9000000 3;
                      StartUnlimited 10000000 3] d)) 0 = Some s' /\
    same_session s s'.
Proof.
  intros d. eexists.
  destruct (session_fields_are_kept
              [AddOrder 3 1 2; MarkOutOfOrder 3; EndSession 0 9 9000000 3;
               StartUnlimited 10000000 3] d 0 _ eq_refl) as (s' & H & S).
  exists s'. split; [reflexivity|]. split; assumption.
Defined.

Lemma step_sessions_pk (d : db) (op : operation) :
  sessions_pk d -> sessions_pk (step d op).
Proof.
  intros Hpk. unfold sessions_pk in *.
  assert (Hins : forall t now k pl r,
            NoDup (map s_id (sessions (insert_session t now k pl r d)))).
  { intros. simpl. rewrite map_app. simpl.
    apply NoDup_app; [exact Hpk|repeat constructor; simpl; tauto|].
    intros x Hx [<-|[]]. exact (next_id_fresh _ Hx). }
  destruct op as [now t m|now t|t p q|ns ne nc t|t]; simpl.
  - unfold start_timed_session. destruct (fetch_active_session t d); auto.
  - unfold start_unlimited_session. destruct (fetch_active_session t d); auto.
  - destruct (add_order_inv t p q d); simpl; exact Hpk.
  - unfold end_session. destruct (fetch_active_session t d); simpl; [|exact Hpk].
    rewrite update_where_keeps_key; [exact Hpk|reflexivity].
  - exact Hpk.
Qed.

Lemma run_sessions_pk (ops : list operation) (d : db) :
  sessions_pk d -> sessions_pk (run ops d).
Proof.
  revert d. unfold run. induction ops as [|op ops IH]; intros d H; simpl; [exact H|].
  apply IH. apply step_sessions_pk. exact H.
Qed.

Lemma step_closed_unchanged (d : db) (op : operation) (i : nat) (s : session_row) :
  sessions_pk d ->
  nth_error (sessions d) i = Some s ->
  s_end_ts s <> None ->
  nth_error (sessions (step d op)) i = Some s.
Proof.
  intros Hpk Hi Hended.
  assert (Hlt : (i < List.length (sessions d))%nat)
    by (apply nth_error_Some; congruence).
  destruct op as [now t m|now t|t p q|ns ne nc t|t]; simpl.
  - unfold start_timed_session. destruct (fetch_active_session t d); simpl; [exact Hi|].
    rewrite nth_error_app1 by exact Hlt. exact Hi.
  - unfold start_unlimited_session. destruct (fetch_active_session t d); simpl; [exact Hi|].
    rewrite nth_error_app1 by exact Hlt. exact Hi.
  - destruct (add_order_inv t p q d); simpl; exact Hi.
  - unfold end_session. destruct (fetch_active_session t d) as [a|] eqn:Ha; simpl;
      [|exact Hi].
    rewrite nth_error_update_where, Hi. simpl.
    destruct (Z.eqb_spec (s_id s) (s_id a)) as [E|N]; [|reflexivity].
    exfalso. unfold fetch_active_session in Ha. apply find_some in Ha.
    destruct Ha as [Hin Hact].
    assert (s = a).
    { apply (pk_unique s_id (sessions d)); auto. eapply nth_error_In; eauto. }
    subst a. unfold is_active in Hact. apply andb_prop in Hact.
    destruct Hact as [_ Hn]. destruct (s_end_ts s); [discriminate|congruence].
  - exact Hi.
Qed.

(** With distinct session ids, a closed session is final: no sequence
    of operations changes any field of a row that has an end
    timestamp, the end timestamp included. *)
Theorem closed_session_is_final (ops : list operation) (d : db) (i : nat) (s : session_row) :
  sessions_pk d ->
  nth_error (sessions d) i = Some s ->
  s_end_ts s <> None ->
  nth_error (sessions (run ops d)) i = Some s.
Proof.
  revert d. unfold run. induction ops as [|op ops IH]; intros d Hpk Hi He; simpl.
  - exact Hi.
  - apply IH; [apply step_sessions_pk; exact Hpk| |exact He].
    apply step_closed_unchanged; assumption.
Qed.

Lemma closed_session_is_final_witness :
  let d := run [StartTimed 0 2 30; EndSession 0 1800000000 1800000000 2] seeded_db in
  exists s,
    nth_error (sessions d) 0 = Some s /\ s_end_ts s = Some 1800 /\
    nth_error
      (sessions (run [StartUnlimited 1900000000 2; AddOrder 2 6 1;
                      EndSession 0 3600000000 3600000000 2; MarkOutOfOrder 2] d)) 0
    = Some s.
Proof.
  intros d. eexists. split; [reflexivity|]. split; [reflexivity|].
  apply (closed_session_is_final
           [StartUnlimited 1900000000 2; AddOrder 2 6 1;
            EndSession 0 3600000000 3600000000 2; MarkOutOfOrder 2] d 0).
  - unfold sessions_pk. vm_compute. repeat constructor. simpl. tauto.
  - reflexivity.
  - discriminate.
Defined.

(** * Stock and order totals *)

Lemma ordered_quantity_app (product_id : Z) (os os' : list order_row) :
  ordered_quantity product_id (os ++ os')
  = ordered_quantity product_id os + ordered_quantity product_id os'.
Proof.
  unfold ordered_quantity. rewrite filter_app, map_app.
  induction (map o_quantity (filter (fun o => o_product_id o =? product_id) os))
    as [|x l IH]; simpl; lia.
Qed.

Lemma step_stock_balance (d : db) (op : operation) (i : nat) (p : product_row) :
  nth_error (products d) i = Some p ->
  exists p',
    nth_error (products (step d op)) i = Some p' /\
    p_id p' = p_id p /\ p_name p' = p_name p /\
    p_category p' = p_category p /\ p_price p' = p_price p /\
    p_stock p' + ordered_quantity (p_id p) (orders (step d op))
    = p_stock p + ordered_quantity (p_id p) (orders d).
Proof.
  intros Hi.
  assert (Hsame : exists p', nth_error (products d) i = Some p' /\
            p_id p' = p_id p /\ p_name p' = p_name p /\
            p_category p' = p_category p /\ p_price p' = p_price p /\
            p_stock p' + ordered_quantity (p_id p) (orders d)
            = p_stock p + ordered_quantity (p_id p) (orders d))
    by (exists p; repeat split; auto).
  destruct op as [now t m|now t|t pid q|ns ne nc t|t]; simpl.
  - unfold start_timed_session. destruct (fetch_active_session t d); exact Hsame.
  - unfold start_unlimited_session. destruct (fetch_active_session t d); exact Hsame.
  - destruct (add_order_inv t pid q d); simpl; try exact Hsame.
    rewrite nth_error_update_where, Hi. simpl.
    rewrite ordered_quantity_app. unfold ordered_quantity at 2. simpl.
    rewrite (Z.eqb_sym pid (p_id p)).
    destruct (p_id p =? pid); eexists; (split; [reflexivity|]); simpl;
      repeat split; lia.
  - unfold end_session. destruct (fetch_active_session t d); exact Hsame.
  - exact Hsame.
Qed.

Lemma step_products_length (d : db) (op : operation) :
  List.length (products (step d op)) = List.length (products d).
Proof.
  destruct op as [now t m|now t|t pid q|ns ne nc t|t]; simpl.
  - unfold start_timed_session. destruct (fetch_active_session t d); reflexivity.
  - unfold start_unlimited_session. destruct (fetch_active_session t d); reflexivity.
  - destruct (add_order_inv t pid q d); simpl; try reflexivity.
    apply update_where_length.
  - unfold end_session. destruct (fetch_active_session t d); reflexivity.
  - reflexivity.
Qed.

(** Stock is conserved: through every sequence of operations each
    product row stays in place with its id, name, category and price,
    no product is added or removed, and the stock of the row plus the
    quantity of that product in the stored orders stays what it was. *)
Theorem stock_is_conserved (ops : list operation) (d : db) :
  List.length (products (run ops d)) = List.length (products d) /\
  forall i p,
    nth_error (products d) i = Some p ->
    exists p',
      nth_error (products (run ops d)) i = Some p' /\
      p_id p' = p_id p /\ p_name p' = p_name p /\
      p_category p' = p_category p /\ p_price p' = p_price p /\
      p_stock p' + ordered_quantity (p_id p) (orders (run ops d))
      = p_stock p + ordered_quantity (p_id p) (orders d).
Proof.
  revert d. unfold run. induction ops as [|op ops IH]; intros d; simpl.
  - split; [reflexivity|]. intros i p Hi. exists p. repeat split; auto.
  - destruct (IH (step d op)) as [Hlen Hrows]. split.
    + rewrite Hlen. apply step_products_length.
    + intros i p Hi.
      destruct (step_stock_balance d op i p Hi) as (p1 & H1 & E1 & E2 & E3 & E4 & B1).
      destruct (Hrows i p1 H1) as (p2 & H2 & F1 & F2 & F3 & F4 & B2).
      exists p2. rewrite E1 in B2. repeat split; try congruence; lia.
Qed.

Section OrderTotals.

#[local] Open Scope Q_scope.

Lemma Qsum_app (l l' : list Q) : Qsum (l ++ l') == Qsum l + Qsum l'.
Proof.
  induction l as [|x l IH]; simpl; [ring|]. rewrite IH. ring.
Qed.

Lemma flat_map_nil {A B : Type} (f : A -> list B) (l : list A) :
  (forall x, In x l -> f x = []) -> flat_map f l = [].
Proof.
  induction l as [|x l IH]; simpl; intros H; [reflexivity|].
  rewrite (H x) by auto. apply IH. intros y Hy. apply H. auto.
Qed.

Lemma filter_nil {A : Type} (p : A -> bool) (l : list A) :
  (forall x, In x l -> p x = false) -> filter p l = [].
Proof.
  induction l as [|x l IH]; simpl; intros H; [reflexivity|].
  rewrite (H x) by auto. apply IH. intros y Hy. apply H. auto.
Qed.

(** Under distinct keys, selecting by the key of a row of the list (and
    a further test) yields that row alone, or nothing. *)
Lemma filter_by_key {A : Type} (key : A -> Z) (q : A -> bool) (l : list A) (a : A) :
  NoDup (map key l) -> In a l ->
  filter (fun x => (key x =? key a)%Z && q x) l = if q a then [a] else [].
Proof.
  induction l as [|x l IH]; simpl; [tauto|].
  intros Hnd Hin. inversion Hnd as [|k ks Hnotin Hnd']; subst.
  destruct Hin as [->|Hin].
  - rewrite Z.eqb_refl. simpl.
    rewrite (filter_nil _ l).
    + destruct (q a); reflexivity.
    + intros y Hy. destruct (Z.eqb_spec (key y) (key a)) as [E|N]; [|reflexivity].
      exfalso. apply Hnotin. rewrite <- E. apply in_map. exact Hy.
  - destruct (Z.eqb_spec (key x) (key a)) as [E|N].
    + exfalso. apply Hnotin. rewrite E. apply in_map. exact Hin.
    + simpl. apply IH; assumption.
Qed.

End OrderTotals.

(** With distinct session ids, a successful [add_order] raises the
    order total of its table by the price of the product times the
    quantity, and leaves the order total of every other table as it
    was. *)
Theorem add_order_raises_total (table_id product_id quantity : Z) (d d' : db) :
  sessions_pk d ->
  add_order table_id product_id quantity d = (true, d') ->
  exists row,
    find (fun p => p_id p =? product_id) (products d) = Some row /\
    (get_active_session_order_total table_id d'
     == get_active_session_order_total table_id d + p_price row * inject_Z quantity)%Q /\
    forall t, t <> table_id ->
      get_active_session_order_total t d' = get_active_session_order_total t d.
Proof.
  intros Hpk H.
  destruct (add_order_inv table_id product_id quantity d)
    as [Hs|s Hs Hp|s row Hs Hp Hlt|s row Hs Hp Hle]; try discriminate.
  injection H as <-. exists row. split; [exact Hp|].
  unfold fetch_active_session in Hs. apply find_some in Hs. destruct Hs as [Hin Hact].
  unfold get_active_session_order_total. simpl.
  split.
  - rewrite flat_map_app, Qsum_app. simpl. rewrite app_nil_r.
    rewrite (filter_by_key s_id (is_active table_id) (sessions d) s Hpk Hin), Hact.
    simpl. ring.
  - intros t Ht. rewrite flat_map_app. simpl. rewrite app_nil_r.
    rewrite (filter_by_key s_id (is_active t) (sessions d) s Hpk Hin).
    assert (Hnot : is_active t s = false).
    { unfold is_active in *. apply andb_prop in Hact. destruct Hact as [E _].
      apply Z.eqb_eq in E. rewrite E.
      destruct (Z.eqb_spec table_id t); [congruence|reflexivity]. }
    rewrite Hnot. simpl. rewrite app_nil_r. reflexivity.
Qed.

Lemma add_order_raises_total_witness :
  let d := start_unlimited_session 0 1 (start_timed_session 0 2 60 seeded_db) in
  exists row,
    find (fun p => p_id p =? 5) (products d) = Some row /\
    (get_active_session_order_total 1 (snd (add_order 1 5 2 d))
     == get_active_session_order_total 1 d + p_price row * inject_Z 2)%Q /\
    forall t, t <> 1 ->
      get_active_session_order_total t (snd (add_order 1 5 2 d))
      = get_active_session_order_total t d.
Proof.
  intros d. apply (add_order_raises_total 1 5 2 d).
  - unfold sessions_pk. vm_compute.
    repeat (constructor; [simpl; intuition discriminate|]). constructor.
  - reflexivity.
Defined.

Lemma total_without_session (table_id : Z) (d : db) :
  fetch_active_session table_id d = None ->
  get_active_session_order_total table_id d = 0%Q.
Proof.
  intros Hnone. unfold get_active_session_order_total.
  rewrite flat_map_nil; [reflexivity|].
  intros o _. rewrite filter_nil; [reflexivity|].
  intros s Hs. unfold fetch_active_session in Hnone.
  rewrite (find_none _ _ Hnone s Hs). apply andb_false_r.
Qed.

(** The order total of a table is that of its open session only: once
    [end_session] has closed the session (on a database with at most
    one open session for each table) the total read for the table is 0,
    whatever was ordered; the bill has to be read before the close. *)
Theorem total_after_close (now_start now_end now_close table_id : Z) (d : db) :
  at_most_one_open d ->
  get_active_session_order_total table_id
    (snd (end_session now_start now_end now_close table_id d)) = 0%Q.
Proof.
  intros Hinv. apply total_without_session. apply fetch_after_end. exact Hinv.
Qed.

Lemma total_after_close_witness :
  let d := snd (add_order 1 5 2 (start_unlimited_session 0 1 seeded_db)) in
  get_active_session_order_total 1 d = (0 + 120 * 2)%Q /\
  get_active_session_order_total 1 (snd (end_session 0 60000000 60000000 1 d)) = 0%Q.
Proof.
  intros d. split; [reflexivity|].
  apply (total_after_close 0 60000000 60000000 1 d).
  intros t. unfold d. simpl. unfold is_active. simpl.
  match goal with |- context [if ?b then _ else _] => destruct b end; simpl; lia.
Defined.

Lemma stock_is_conserved_witness :
  exists p',
    nth_error
      (products (run [StartUnlimited 0 1; AddOrder 1 5 2; AddOrder 1 5 40;
                      AddOrder 1 5 3; EndSession 0 1 2 1] seeded_db)) 4 = Some p' /\
    p_stock p' = 25 /\
    p_stock p' +
    ordered_quantity 5
      (orders (run [StartUnlimited 0 1; AddOrder 1 5 2; AddOrder 1 5 40;
                    AddOrder 1 5 3; EndSession 0 1 2 1] seeded_db))
    = 30 + ordered_quantity 5 (orders seeded_db).
Proof.
  destruct (proj2 (stock_is_conserved
                     [StartUnlimited 0 1; AddOrder 1 5 2; AddOrder 1 5 40;
                      AddOrder 1 5 3; EndSession 0 1 2 1] seeded_db)
              4%nat _ eq_refl) as (p' & H & _ & _ & _ & _ & B).
  exists p'. split; [exact H|]. split; [|exact B].
  vm_compute in H. injection H as <-. reflexivity.
Defined.

(** * Tables *)

(** What a table row keeps for its whole life, and what can only grow. *)
Lemma step_table_row (d : db) (op : operation) (i : nat) (r : table_row) :
  nth_error (tables d) i = Some r ->
  exists r',
    nth_error (tables (step d op)) i = Some r' /\
    t_id r' = t_id r /\ t_name r' = t_name r /\ t_kind r' = t_kind r /\
    t_hardware r' = t_hardware r /\
    (t_is_out_of_order r = 1 -> t_is_out_of_order r' = 1).
Proof.
  intros Hi.
  assert (Hsame : exists r', nth_error (tables d) i = Some r' /\
            t_id r' = t_id r /\ t_name r' = t_name r /\ t_kind r' = t_kind r /\
            t_hardware r' = t_hardware r /\
            (t_is_out_of_order r = 1 -> t_is_out_of_order r' = 1))
    by (exists r; repeat split; auto).
  assert (Hupd : forall t f,
            (forall x, t_id (f x) = t_id x /\ t_name (f x) = t_name x /\
                       t_kind (f x) = t_kind x /\ t_hardware (f x) = t_hardware x /\
                       (t_is_out_of_order x = 1 -> t_is_out_of_order (f x) = 1)) ->
            exists r',
              nth_error (update_where (fun x => t_id x =? t) f (tables d)) i = Some r' /\
              t_id r' = t_id r /\ t_name r' = t_name r /\ t_kind r' = t_kind r /\
              t_hardware r' = t_hardware r /\
              (t_is_out_of_order r = 1 -> t_is_out_of_order r' = 1)).
  { intros t f Hf. rewrite nth_error_update_where, Hi. simpl.
    destruct (t_id r =? t); eexists; (split; [reflexivity|]).
    - apply Hf.
    - repeat split; auto. }
  destruct op as [now t m|now t|t p q|ns ne nc t|t]; simpl.
  - unfold start_timed_session. destruct (fetch_active_session t d); [exact Hsame|].
    simpl. apply Hupd. intros x. simpl. repeat split; auto.
  - unfold start_unlimited_session. destruct (fetch_active_session t d); [exact Hsame|].
    simpl. apply Hupd. intros x. simpl. repeat split; auto.
  - destruct (add_order_inv t p q d); simpl; exact Hsame.
  - unfold end_session. destruct (fetch_active_session t d); [|exact Hsame].
    simpl. apply Hupd. intros x. simpl. repeat split; auto.
  - apply Hupd. intros x. simpl. repeat split; auto.
Qed.

(** Out of order is for good: through every sequence of operations a
    table row stays in place with its id, name, kind and hardware, and
    an out-of-order flag that is 1 stays 1, since no operation writes
    the flag back. *)
Theorem out_of_order_is_permanent (ops : list operation) (d : db) (i : nat) (r : table_row) :
  nth_error (tables d) i = Some r ->
  exists r',
    nth_error (tables (run ops d)) i = Some r' /\
    t_id r' = t_id r /\ t_name r' = t_name r /\ t_kind r' = t_kind r /\
    t_hardware r' = t_hardware r /\
    (t_is_out_of_order r = 1 -> t_is_out_of_order r' = 1).
Proof.
  revert d r. unfold run. induction ops as [|op ops IH]; intros d r Hi; simpl.
  - exists r. repeat split; auto.
  - destruct (step_table_row d op i r Hi) as (r1 & H1 & A1 & A2 & A3 & A4 & A5).
    destruct (IH _ _ H1) as (r2 & H2 & B1 & B2 & B3 & B4 & B5).
    exists r2. repeat split; try congruence. auto.
Qed.

Lemma out_of_order_is_permanent_witness :
  let d := mark_table_out_of_order 8 seeded_db in
  exists r r',
    nth_error (tables d) 7 = Some r /\ t_is_out_of_order r = 1 /\
    nth_error
      (tables (run [StartTimed 0 8 30; AddOrder 8 1 1; EndSession 0 1 2 8;
                    StartUnlimited 5 8] d)) 7 = Some r' /\
    t_id r' = t_id r /\ t_is_out_of_order r' = 1.
Proof.
  intros d. eexists.
  destruct (out_of_order_is_permanent
              [StartTimed 0 8 30; AddOrder 8 1 1; EndSession 0 1 2 8;
               StartUnlimited 5 8] d 7 _ eq_refl) as (r' & H & A1 & _ & _ & _ & A5).
  exists r'. split; [reflexivity|]. split; [reflexivity|].
  split; [exact H|]. split; [exact A1|]. apply A5. reflexivity.
Defined.

Lemma rate_by_projection (table_id : Z) (l l' : list table_row) :
  map (fun r => (t_id r, t_kind r)) l = map (fun r => (t_id r, t_kind r)) l' ->
  option_map t_kind (find (fun r => t_id r =? table_id) l)
  = option_map t_kind (find (fun r => t_id r =? table_id) l').
Proof.
  revert l'. induction l as [|x l IH]; intros [|y l']; simpl; try discriminate;
    [reflexivity|].
  intros H. injection H as Hid Hkind Hrest. rewrite Hid.
  destruct (t_id y =? table_id); simpl; [congruence|]. apply IH. exact Hrest.
Qed.

Lemma step_table_kinds (d : db) (op : operation) :
  map (fun r => (t_id r, t_kind r)) (tables (step d op))
  = map (fun r => (t_id r, t_kind r)) (tables d).
Proof.
  assert (Hupd : forall t f,
            (forall x, t_id (f x) = t_id x /\ t_kind (f x) = t_kind x) ->
            map (fun r => (t_id r, t_kind r))
                (update_where (fun x => t_id x =? t) f (tables d))
            = map (fun r => (t_id r, t_kind r)) (tables d)).
  { intros t f Hf. unfold update_where. rewrite map_map. apply map_ext.
    intros x. destruct (t_id x =? t); [|reflexivity].
    destruct (Hf x) as [-> ->]. reflexivity. }
  destruct op as [now t m|now t|t p q|ns ne nc t|t]; simpl.
  - unfold start_timed_session. destruct (fetch_active_session t d); [reflexivity|].
    apply Hupd. intros x. split; reflexivity.
  - unfold start_unlimited_session. destruct (fetch_active_session t d); [reflexivity|].
    apply Hupd. intros x. split; reflexivity.
  - destruct (add_order_inv t p q d); reflexivity.
  - unfold end_session. destruct (fetch_active_session t d); [|reflexivity].
    apply Hupd. intros x. split; reflexivity.
  - apply Hupd. intros x. split; reflexivity.
Qed.

(** The hourly rate of a table is 0, 20 or 30, and no sequence of
    operations changes it: the rate read for a table is the same
    before and after. *)
Theorem hourly_rate_is_stable (ops : list operation) (table_id : Z) (d : db) :
  get_hourly_rate table_id (run ops d) = get_hourly_rate table_id d /\
  (get_hourly_rate table_id d = 0%Q \/ get_hourly_rate table_id d = 20%Q \/
   get_hourly_rate table_id d = 30%Q).
Proof.
  split.
  - revert d. unfold run. induction ops as [|op ops IH]; intros d; simpl; [reflexivity|].
    rewrite IH. unfold get_hourly_rate, fetch_table.
    pose proof (rate_by_projection table_id _ _ (step_table_kinds d op)) as H.
    destruct (find _ (tables (step d op))) as [x|], (find _ (tables d)) as [y|];
      simpl in H; try discriminate; [|reflexivity].
    injection H as ->. reflexivity.
  - unfold get_hourly_rate. destruct (fetch_table table_id d) as [x|]; [|auto].
    destruct (t_kind x =? TABLE_KIND_VIP)%string; auto.
Qed.

Lemma hourly_rate_is_stable_witness :
  get_hourly_rate 3 (run [StartTimed 0 3 60; MarkOutOfOrder 3; EndSession 0 1 2 3] seeded_db)
  = 30%Q /\
  get_hourly_rate 12 (run [StartTimed 0 3 60; MarkOutOfOrder 12] seeded_db) = 20%Q.
Proof.
  split.
  - rewrite (proj1 (hourly_rate_is_stable
                      [StartTimed 0 3 60; MarkOutOfOrder 3; EndSession 0 1 2 3] 3 seeded_db)).
    reflexivity.
  - rewrite (proj1 (hourly_rate_is_stable [StartTimed 0 3 60; MarkOutOfOrder 12] 12 seeded_db)).
    reflexivity.
Defined.

Lemma run_one_open (ops : list operation) (d : db) :
  at_most_one_open d -> at_most_one_open (run ops d).
Proof.
  revert d. unfold run. induction ops as [|op ops IH]; intros d H; simpl; [exact H|].
  apply IH. apply step_one_open. exact H.
Qed.

Lemma step_occupied (d : db) (op : operation) :
  sessions_pk d -> occupied_has_session d -> occupied_has_session (step d op).
Proof.
  intros Hpk Hocc.
  assert (Hins : forall t now k pl rate,
            fetch_active_session t d = None ->
            occupied_has_session (insert_session t now k pl rate d)).
  { intros t now k pl rate Hnone r' Hin Hst.
    rewrite fetch_after_insert by exact Hnone.
    destruct (Z.eqb_spec (t_id r') t) as [E|N]; [discriminate|].
    simpl in Hin. apply in_update_where in Hin. destruct Hin as (r & Hr & ->).
    destruct (Z.eqb_spec (t_id r) t) as [E|N']; [simpl in N; contradiction|].
    apply Hocc; assumption. }
  destruct op as [now t m|now t|t p q|ns ne nc t|t]; simpl.
  - unfold start_timed_session.
    destruct (fetch_active_session t d) eqn:E; [exact Hocc|]. apply Hins. exact E.
  - unfold start_unlimited_session.
    destruct (fetch_active_session t d) eqn:E; [exact Hocc|]. apply Hins. exact E.
  - destruct (add_order_inv t p q d); simpl; exact Hocc.
  - unfold end_session.
    destruct (fetch_active_session t d) as [a|] eqn:Ha; simpl; [|exact Hocc].
    intros r' Hin Hst. simpl in Hin. apply in_update_where in Hin.
    destruct Hin as (r & Hr & ->).
    destruct (Z.eqb_spec (t_id r) t) as [E|N].
    + unfold close_status in Hst. simpl in Hst.
      destruct (t_is_out_of_order r =? 1); discriminate.
    + specialize (Hocc r Hr Hst).
      destruct (fetch_active_session (t_id r) d) as [b|] eqn:Hb; [|congruence].
      unfold fetch_active_session in *. simpl.
      apply find_some in Ha. destruct Ha as [Hina Hacta].
      apply find_some in Hb. destruct Hb as [Hinb Hactb].
      apply (find_in_some _ _ b); [|exact Hactb].
      apply in_update_where. exists b. split; [exact Hinb|].
      destruct (Z.eqb_spec (s_id b) (s_id a)) as [E|N']; [|reflexivity].
      exfalso. assert (b = a) by (apply (pk_unique s_id (sessions d)); auto).
      subst b. unfold is_active in *.
      apply andb_prop in Hacta. apply andb_prop in Hactb.
      destruct Hacta as [E1 _], Hactb as [E2 _].
      apply Z.eqb_eq in E1, E2. congruence.
  - intros r' Hin Hst. simpl in Hin. apply in_update_where in Hin.
    destruct Hin as (r & Hr & ->).
    destruct (Z.eqb_spec (t_id r) t) as [E|N]; [discriminate|].
    apply (Hocc r Hr Hst).
Qed.

(** With distinct session ids, a table whose status is Occupied has an
    active session, through every sequence of operations: the status
    test that guards the order and close-bill buttons never lets
    through a table without session. *)
Theorem occupied_means_active_session (ops : list operation) (d : db) :
  sessions_pk d ->
  occupied_has_session d ->
  occupied_has_session (run ops d).
Proof.
  revert d. unfold run. induction ops as [|op ops IH]; intros d Hpk Hocc; simpl.
  - exact Hocc.
  - apply IH; [apply step_sessions_pk|apply step_occupied]; assumption.
Qed.

Lemma occupied_means_active_session_witness :
  occupied_has_session
    (run [StartTimed 0 1 60; StartUnlimited 0 2; MarkOutOfOrder 2;
          EndSession 0 1 2 1; StartUnlimited 3000000 1] seeded_db).
Proof.
  apply (occupied_means_active_session
           [StartTimed 0 1 60; StartUnlimited 0 2; MarkOutOfOrder 2;
            EndSession 0 1 2 1; StartUnlimited 3000000 1] seeded_db).
  - unfold sessions_pk. simpl. constructor.
  - intros r Hin Hst. vm_compute in Hin.
    repeat (destruct Hin as [<-|Hin]; [discriminate|]). destruct Hin.
Defined.

(** * The charge as time passes *)

Lemma elapsed_minutes_mono (start now_end now_end' : Z) :
  now_end <= now_end' ->
  elapsed_minutes start now_end <= elapsed_minutes start now_end'.
Proof.
  intros H. unfold elapsed_minutes.
  apply Z.max_le_compat_l. apply round_half_even_mono.
  unfold total_seconds, Qdiv.
  apply Qmult_le_compat_r; [|discriminate].
  apply Qmult_le_compat_r; [|discriminate].
  rewrite <- Zle_Qle. lia.
Qed.

Lemma charge_grows_with_time_aux (now_start now_end now_end' : Z) (s : session_row) :
  (0 <= hourly_of s)%Q ->
  now_end <= now_end' ->
  (fst (_calculate_time_charge now_start now_end s)
   <= fst (_calculate_time_charge now_start now_end' s))%Q.
Proof.
  intros Hrate Hle.
  destruct (planned_or_elapsed s) as [(m & Hk & Hp & Hm)|H].
  - rewrite !(time_charge_planned _ _ m) by assumption. apply Qle_refl.
  - rewrite !time_charge_elapsed by assumption. simpl.
    pose proof (elapsed_minutes_mono (session_start now_start s) _ _ Hle) as Hm.
    apply round2_mono.
    rewrite !(Qmult_comm (hourly_of s)).
    apply Qmult_le_compat_r; [|exact Hrate].
    unfold Qdiv. apply Qmult_le_compat_r; [|discriminate].
    rewrite <- Zle_Qle. exact Hm.
Qed.

(** The later the clock reads at close, the larger the charge: for a
    session with a non-negative rate, billed minutes and charge never
    decrease when the close time grows (and they do not move at all for
    a Timed session with a non-zero planned duration). *)
Theorem charge_grows_with_time (now_start now_end now_end' : Z) (s : session_row) :
  (0 <= hourly_of s)%Q ->
  now_end <= now_end' ->
  snd (_calculate_time_charge now_start now_end s)
  <= snd (_calculate_time_charge now_start now_end' s) /\
  (fst (_calculate_time_charge now_start now_end s)
   <= fst (_calculate_time_charge now_start now_end' s))%Q.
Proof.
  intros Hrate Hle.
  destruct (planned_or_elapsed s) as [(m & Hk & Hp & Hm)|H].
  - rewrite !(time_charge_planned _ _ m) by assumption. simpl.
    split; [lia|apply Qle_refl].
  - rewrite !time_charge_elapsed by assumption. simpl.
    pose proof (elapsed_minutes_mono (session_start now_start s) _ _ Hle) as Hm.
    split; [exact Hm|].
    apply round2_mono.
    rewrite !(Qmult_comm (hourly_of s)).
    apply Qmult_le_compat_r; [|exact Hrate].
    unfold Qdiv. apply Qmult_le_compat_r; [|discriminate].
    rewrite <- Zle_Qle. exact Hm.
Qed.

Lemma charge_grows_with_time_witness :
  let s := mk_session 1 7 (Some 0) None "Unlimited" None (Some 20%Q) in
  snd (_calculate_time_charge 0 1800000000 s)
  <= snd (_calculate_time_charge 0 5400000000 s) /\
  (fst (_calculate_time_charge 0 1800000000 s)
   <= fst (_calculate_time_charge 0 5400000000 s))%Q.
Proof.
  intros s. apply (charge_grows_with_time 0 1800000000 5400000000 s).
  - discriminate.
  - lia.
Defined.

(** * Ordered and grouped queries *)

Section Sorting.

Context {A : Type}.
Variable leb : A -> A -> bool.

Lemma insert_by_perm (x : A) (l : list A) : Permutation (insert_by leb x l) (x :: l).
Proof.
  induction l as [|y l IH]; simpl; [apply Permutation_refl|].
  destruct (leb x y); [apply Permutation_refl|].
  eapply Permutation_trans; [apply perm_skip; exact IH|apply perm_swap].
Qed.

Lemma sort_by_perm (l : list A) : Permutation (sort_by leb l) l.
Proof.
  induction l as [|x l IH]; simpl; [apply perm_nil|].
  eapply Permutation_trans; [apply insert_by_perm|apply perm_skip; exact IH].
Qed.

Hypothesis leb_total : forall a b, leb a b = true \/ leb b a = true.

Lemma insert_by_sorted (x : A) (l : list A) :
  Sorted (fun a b => leb a b = true) l ->
  Sorted (fun a b => leb a b = true) (insert_by leb x l).
Proof.
  induction l as [|y l IH]; simpl; intros Hs.
  - repeat constructor.
  - destruct (leb x y) eqn:E.
    + constructor; [exact Hs|constructor; exact E].
    + apply Sorted_inv in Hs. destruct Hs as [Hs Hhd].
      constructor; [apply IH; exact Hs|].
      destruct l as [|z l]; simpl.
      * constructor. destruct (leb_total x y); congruence.
      * destruct (leb x z); constructor.
        -- destruct (leb_total x y); congruence.
        -- inversion Hhd; assumption.
Qed.

Lemma sort_by_sorted (l : list A) : Sorted (fun a b => leb a b = true) (sort_by leb l).
Proof.
  induction l as [|x l IH]; simpl; [constructor|]. apply insert_by_sorted. exact IH.
Qed.

End Sorting.

Lemma by_name_total (a b : product_row) : by_name a b = true \/ by_name b a = true.
Proof. unfold by_name. apply String.leb_total. Qed.

(** [fetch_products] returns each product of the asked category once,
    and all products when the category is missing or the empty text,
    in ascending order of name. *)
Theorem fetch_products_by_category (category : option string) (d : db) :
  Sorted (fun a b => (p_name a <=? p_name b)%string = true) (fetch_products category d) /\
  (forall c, category = Some c -> c <> ""%string ->
     Permutation (fetch_products category d)
       (filter (fun p => (p_category p =? c)%string) (products d)) /\
     forall p, In p (fetch_products category d) <->
               In p (products d) /\ p_category p = c) /\
  (category = None \/ category = Some ""%string ->
     Permutation (fetch_products category d) (products d)).
Proof.
  split; [|split].
  - unfold fetch_products. destruct category as [c|];
      [destruct (c =? "")%string|]; apply (sort_by_sorted by_name by_name_total).
  - intros c -> Hc. unfold fetch_products.
    destruct (String.eqb_spec c "") as [E|_]; [contradiction|].
    split; [apply sort_by_perm|].
    intros p. split.
    + intros H. apply (Permutation_in _ (sort_by_perm by_name _)) in H.
      apply filter_In in H. destruct H as [H1 H2].
      split; [exact H1|]. apply String.eqb_eq. exact H2.
    + intros [H1 H2].
      apply (Permutation_in _ (Permutation_sym (sort_by_perm by_name _))).
      apply filter_In. split; [exact H1|]. apply String.eqb_eq. exact H2.
  - intros [->| ->]; simpl; apply sort_by_perm.
Qed.

Lemma fetch_products_by_category_witness :
  map p_name (fetch_products (Some CATEGORY_DRINK) seeded_db)
  = ["Cola"; "Fanta"; "Sprite"; "Tea"; "Water"]%string /\
  (forall p, In p (fetch_products (Some CATEGORY_DRINK) seeded_db) <->
             In p (products seeded_db) /\ p_category p = CATEGORY_DRINK) /\
  Permutation (fetch_products (Some ""%string) seeded_db) (products seeded_db).
Proof.
  split; [reflexivity|]. split.
  - apply (proj1 (proj2 (fetch_products_by_category (Some CATEGORY_DRINK) seeded_db))
             CATEGORY_DRINK eq_refl).
    discriminate.
  - apply (proj2 (proj2 (fetch_products_by_category (Some ""%string) seeded_db))).
    right. reflexivity.
Defined.

Section Groups.

#[local] Open Scope Q_scope.

Lemma Qsum_map_ext {A : Type} (f g : A -> Q) (l : list A) :
  (forall x, In x l -> f x == g x) -> Qsum (map f l) == Qsum (map g l).
Proof.
  induction l as [|x l IH]; simpl; intros H; [reflexivity|].
  rewrite (H x) by auto. rewrite IH; [reflexivity|]. intros y Hy. apply H. auto.
Qed.

Lemma Qsum_map_plus {A : Type} (f g : A -> Q) (l : list A) :
  Qsum (map (fun x => f x + g x) l) == Qsum (map f l) + Qsum (map g l).
Proof.
  induction l as [|x l IH]; simpl; [ring|]. rewrite IH. ring.
Qed.

Lemma Qsum_map_zero {A : Type} (l : list A) : Qsum (map (fun _ => 0) l) == 0.
Proof.
  induction l as [|x l IH]; simpl; [reflexivity|]. rewrite IH. ring.
Qed.

(** Summing a value at the single place where a key occurs. *)
Lemma Qsum_pick (ns : list string) (a : string) (c : Q) :
  NoDup ns -> In a ns ->
  Qsum (map (fun n => if (a =? n)%string then c else 0) ns) == c.
Proof.
  induction ns as [|n ns IH]; simpl; [tauto|].
  intros Hnd Hin. inversion Hnd as [|k ks Hnotin Hnd']; subst.
  destruct (String.eqb_spec a n) as [->|N].
  - rewrite (Qsum_map_ext _ (fun _ => 0)).
    + rewrite Qsum_map_zero. ring.
    + intros x Hx. destruct (String.eqb_spec n x) as [->|_]; [contradiction|reflexivity].
  - destruct Hin as [->|Hin]; [contradiction|]. rewrite IH by assumption. ring.
Qed.

(** Sums taken group by group add up to the sum over all rows. *)
Lemma Qsum_groups {R : Type} (key : R -> string) (val : R -> Q)
    (rows : list R) (ns : list string) :
  NoDup ns ->
  (forall r, In r rows -> In (key r) ns) ->
  Qsum (map (fun n => Qsum (map val (filter (fun r => (key r =? n)%string) rows))) ns)
  == Qsum (map val rows).
Proof.
  intros Hnd. induction rows as [|r rows IH]; intros Hall; simpl.
  - apply Qsum_map_zero.
  - rewrite (Qsum_map_ext _
      (fun n => (if (key r =? n)%string then val r else 0)
                + Qsum (map val (filter (fun r0 => (key r0 =? n)%string) rows)))).
    + rewrite Qsum_map_plus, Qsum_pick by (auto; apply Hall; simpl; auto).
      rewrite IH; [reflexivity|]. intros x Hx. apply Hall. simpl. auto.
    + intros n _. destruct (key r =? n)%string; simpl; ring.
Qed.

End Groups.

Lemma Zsum_map_plus {A : Type} (f g : A -> Z) (l : list A) :
  Zsum (map (fun x => f x + g x) l) = Zsum (map f l) + Zsum (map g l).
Proof. induction l as [|x l IH]; simpl; lia. Qed.

Lemma Zsum_map_ext {A : Type} (f g : A -> Z) (l : list A) :
  (forall x, In x l -> f x = g x) -> Zsum (map f l) = Zsum (map g l).
Proof.
  induction l as [|x l IH]; simpl; intros H; [reflexivity|].
  rewrite (H x) by auto. rewrite IH; [reflexivity|]. intros y Hy. apply H. auto.
Qed.

Lemma Zsum_map_zero {A : Type} (l : list A) : Zsum (map (fun _ => 0) l) = 0.
Proof. induction l as [|x l IH]; simpl; lia. Qed.

Lemma Zsum_pick (ns : list string) (a : string) (c : Z) :
  NoDup ns -> In a ns ->
  Zsum (map (fun n => if (a =? n)%string then c else 0) ns) = c.
Proof.
  induction ns as [|n ns IH]; simpl; [tauto|].
  intros Hnd Hin. inversion Hnd as [|k ks Hnotin Hnd']; subst.
  destruct (String.eqb_spec a n) as [->|N].
  - rewrite (Zsum_map_ext _ (fun _ => 0)).
    + rewrite Zsum_map_zero. lia.
    + intros x Hx. destruct (String.eqb_spec n x) as [->|_]; [contradiction|reflexivity].
  - destruct Hin as [->|Hin]; [contradiction|]. rewrite IH by assumption. lia.
Qed.

Lemma Zsum_groups {R : Type} (key : R -> string) (val : R -> Z)
    (rows : list R) (ns : list string) :
  NoDup ns ->
  (forall r, In r rows -> In (key r) ns) ->
  Zsum (map (fun n => Zsum (map val (filter (fun r => (key r =? n)%string) rows))) ns)
  = Zsum (map val rows).
Proof.
  intros Hnd. induction rows as [|r rows IH]; intros Hall; simpl.
  - apply Zsum_map_zero.
  - rewrite (Zsum_map_ext _
      (fun n => (if (key r =? n)%string then val r else 0)
                + Zsum (map val (filter (fun r0 => (key r0 =? n)%string) rows)))).
    + rewrite Zsum_map_plus, Zsum_pick by (auto; apply Hall; simpl; auto).
      rewrite IH; [reflexivity|]. intros x Hx. apply Hall. simpl. auto.
    + intros n _. destruct (key r =? n)%string; simpl; lia.
Qed.

Lemma group_names (rows : list (string * Z * Q)) :
  NoDup (sort_by String.leb (nodup string_dec (map row_name rows))) /\
  forall r, In r rows ->
    In (row_name r) (sort_by String.leb (nodup string_dec (map row_name rows))).
Proof.
  split.
  - apply (Permutation_NoDup (Permutation_sym (sort_by_perm _ _))). apply NoDup_nodup.
  - intros r Hr. apply (Permutation_in _ (Permutation_sym (sort_by_perm _ _))).
    apply nodup_In. apply in_map. exact Hr.
Qed.

Lemma filter_key_only {A : Type} (key : A -> Z) (l : list A) (a : A) :
  NoDup (map key l) -> In a l -> filter (fun x => key x =? key a) l = [a].
Proof.
  intros Hnd Hin.
  rewrite (filter_ext _ (fun x => (key x =? key a) && true)).
  - apply (filter_by_key key (fun _ => true)); assumption.
  - intros x. rewrite andb_true_r. reflexivity.
Qed.

(** With distinct product ids and every order naming a product, the
    join with [products] keeps each order row once. *)
Lemma session_order_rows_amounts (table_id : Z) (d : db) :
  products_pk d -> orders_refer_products d ->
  map row_amount (session_order_rows table_id d)
  = flat_map
      (fun o => map (fun _ => o_amount o)
                  (filter (fun s => (s_id s =? o_session_id o) && is_active table_id s)
                     (sessions d)))
      (orders d).
Proof.
  intros Hpk Href. unfold session_order_rows. unfold orders_refer_products in Href.
  induction (orders d) as [|o os IH]; simpl; [reflexivity|].
  rewrite map_app, IH by (intros o' Ho'; apply Href; simpl; auto).
  f_equal.
  destruct (Href o) as (p & Hp & Hid); [simpl; auto|].
  rewrite <- Hid. rewrite (filter_key_only p_id (products d) p Hpk Hp).
  induction (filter _ (sessions d)) as [|s ss IHs]; simpl in *; [reflexivity|].
  f_equal. exact IHs.
Qed.

Lemma bill_sums (table_id : Z) (d : db) :
  products_pk d -> orders_refer_products d ->
  (Qsum (map li_total_amount (fetch_active_session_orders table_id d))
   == get_active_session_order_total table_id d)%Q /\
  Zsum (map li_total_qty (fetch_active_session_orders table_id d))
  = Zsum (map row_quantity (session_order_rows table_id d)) /\
  NoDup (map li_name (fetch_active_session_orders table_id d)) /\
  Sorted (fun a b => (a <=? b)%string = true)
    (map li_name (fetch_active_session_orders table_id d)).
Proof.
  intros Hpk Href. unfold fetch_active_session_orders, group_by_name.
  destruct (group_names (session_order_rows table_id d)) as [Hnd Hall].
  rewrite !map_map. simpl. split; [|split; [|split]].
  - rewrite (Qsum_groups row_name row_amount) by assumption.
    unfold get_active_session_order_total.
    rewrite session_order_rows_amounts by assumption. reflexivity.
  - apply (Zsum_groups row_name row_quantity); assumption.
  - rewrite map_id. exact Hnd.
  - rewrite map_id. apply sort_by_sorted. apply String.leb_total.
Qed.

(** The joined rows are the triples of an order, an open session of the
    table it belongs to, and the product it names. *)
Lemma session_order_rows_in (table_id : Z) (d : db) (n : string) (q : Z) (a : Q) :
  In (n, q, a) (session_order_rows table_id d) <->
  exists o s p,
    In o (orders d) /\ In s (sessions d) /\ In p (products d) /\
    s_id s = o_session_id o /\ is_active table_id s = true /\
    p_id p = o_product_id o /\
    n = p_name p /\ q = o_quantity o /\ a = o_amount o.
Proof.
  unfold session_order_rows. rewrite in_flat_map. split.
  - intros (o & Ho & H). apply in_flat_map in H. destruct H as (s & Hs & H).
    apply in_map_iff in H. destruct H as (p & Hp & Hin).
    apply filter_In in Hs. destruct Hs as [Hs Hc]. apply andb_prop in Hc.
    destruct Hc as [Hid Hact]. apply Z.eqb_eq in Hid.
    apply filter_In in Hin. destruct Hin as [Hin Hpid]. apply Z.eqb_eq in Hpid.
    injection Hp as <- <- <-. exists o, s, p. repeat split; auto.
  - intros (o & s & p & Ho & Hs & Hp & Hid & Hact & Hpid & -> & -> & ->).
    exists o. split; [exact Ho|]. apply in_flat_map. exists s. split.
    + apply filter_In. split; [exact Hs|]. rewrite Hid, Z.eqb_refl, Hact. reflexivity.
    + apply in_map_iff. exists p. split; [reflexivity|].
      apply filter_In. split; [exact Hp|]. apply Z.eqb_eq. exact Hpid.
Qed.

Lemma group_by_name_lines (rows : list (string * Z * Q)) :
  (forall l, In l (group_by_name rows) ->
     li_total_qty l
     = Zsum (map row_quantity (filter (fun r => (row_name r =? li_name l)%string) rows)) /\
     li_total_amount l
     = Qsum (map row_amount (filter (fun r => (row_name r =? li_name l)%string) rows)) /\
     exists r, In r rows /\ row_name r = li_name l) /\
  (forall r, In r rows -> exists l, In l (group_by_name rows) /\ li_name l = row_name r).
Proof.
  unfold group_by_name. split.
  - intros l Hl. apply in_map_iff in Hl. destruct Hl as (n & <- & Hn). simpl.
    split; [reflexivity|]. split; [reflexivity|].
    apply (Permutation_in _ (sort_by_perm _ _)) in Hn.
    apply nodup_In in Hn. apply in_map_iff in Hn. destruct Hn as (r & Hr & Hin).
    exists r. auto.
  - intros r Hr. eexists. split.
    + apply in_map_iff. exists (row_name r). split; [reflexivity|].
      apply (proj2 (group_names rows)). exact Hr.
    + reflexivity.
Qed.

(** The bill adds up, line by line: with distinct product ids and every
    order naming a product, [fetch_active_session_orders] returns one
    line for each product name ordered in an open session of the table
    and no other line, in ascending order of name; the quantity and the
    amount of a line are the sums over the ordered rows of that name;
    and the line amounts sum to [get_active_session_order_total], the
    line quantities to the quantities of the joined rows. *)
Theorem bill_lines_sum_to_total (table_id : Z) (d : db) :
  products_pk d -> orders_refer_products d ->
  (Qsum (map li_total_amount (fetch_active_session_orders table_id d))
   == get_active_session_order_total table_id d)%Q /\
  Zsum (map li_total_qty (fetch_active_session_orders table_id d))
  = Zsum (map row_quantity (session_order_rows table_id d)) /\
  NoDup (map li_name (fetch_active_session_orders table_id d)) /\
  Sorted (fun a b => (a <=? b)%string = true)
    (map li_name (fetch_active_session_orders table_id d)) /\
  (forall o s p,
     In o (orders d) -> In s (sessions d) -> In p (products d) ->
     s_id s = o_session_id o -> is_active table_id s = true ->
     p_id p = o_product_id o ->
     exists l, In l (fetch_active_session_orders table_id d) /\ li_name l = p_name p) /\
  (forall l, In l (fetch_active_session_orders table_id d) ->
     (exists o s p,
        In o (orders d) /\ In s (sessions d) /\ In p (products d) /\
        s_id s = o_session_id o /\ is_active table_id s = true /\
        p_id p = o_product_id o /\ li_name l = p_name p) /\
     li_total_qty l
     = Zsum (map row_quantity
               (filter (fun r => (row_name r =? li_name l)%string)
                  (session_order_rows table_id d))) /\
     li_total_amount l
     = Qsum (map row_amount
               (filter (fun r => (row_name r =? li_name l)%string)
                  (session_order_rows table_id d)))).
Proof.
  intros Hpk Href.
  destruct (bill_sums table_id d Hpk Href) as (H1 & H2 & H3 & H4).
  destruct (group_by_name_lines (session_order_rows table_id d)) as [Hlines Hrows].
  repeat (split; [assumption|]). split.
  - intros o s p Ho Hs Hp Hid Hact Hpid.
    apply (Hrows (p_name p, o_quantity o, o_amount o)).
    apply session_order_rows_in. exists o, s, p. repeat split; auto.
  - intros l Hl. destruct (Hlines l Hl) as (Hq & Ha & ((n & q) & a) & Hr & Hn).
    split; [|split; assumption].
    apply session_order_rows_in in Hr.
    destruct Hr as (o & s & p & Ho & Hs & Hp & Hid & Hact & Hpid & Hname & _ & _).
    exists o, s, p. repeat split; auto. rewrite <- Hn. exact Hname.
Qed.

Lemma step_orders_refer (d : db) (op : operation) :
  orders_refer_products d -> orders_refer_products (step d op).
Proof.
  intros Href.
  destruct op as [now t m|now t|t pid q|ns ne nc t|t]; simpl.
  - unfold start_timed_session. destruct (fetch_active_session t d); exact Href.
  - unfold start_unlimited_session. destruct (fetch_active_session t d); exact Href.
  - destruct (add_order_inv t pid q d) as [Hs|s Hs Hp|s row Hs Hp Hlt|s row Hs Hp Hle];
      simpl; try exact Href.
    assert (Hkeep : forall p, In p (products d) ->
              exists p', In p' (update_where (fun p0 => p_id p0 =? pid)
                                  (fun p0 => set_stock (p_stock p0 - q) p0) (products d))
                         /\ p_id p' = p_id p).
    { intros p Hin. eexists. split; [apply in_update_where; exists p; split; eauto|].
      destruct (p_id p =? pid); reflexivity. }
    intros o Ho. simpl in Ho. apply in_app_or in Ho. simpl.
    destruct Ho as [Ho|[<-|[]]].
    + destruct (Href o Ho) as (p & Hin & Hid).
      destruct (Hkeep p Hin) as (p' & Hin' & Hid'). exists p'. split; congruence.
    + apply find_by_id_some in Hp. destruct Hp as [Hin Hid].
      destruct (Hkeep row Hin) as (p' & Hin' & Hid'). exists p'. simpl. split; congruence.
  - unfold end_session. destruct (fetch_active_session t d); exact Href.
  - exact Href.
Qed.

Lemma run_orders_refer (ops : list operation) (d : db) :
  orders_refer_products d -> orders_refer_products (run ops d).
Proof.
  revert d. unfold run. induction ops as [|op ops IH]; intros d H; simpl; [exact H|].
  apply IH. apply step_orders_refer. exact H.
Qed.

Lemma seeded_db_orders_refer : orders_refer_products seeded_db.
Proof. intros o []. Qed.

Lemma bill_lines_sum_to_total_witness :
  let d := run [StartUnlimited 0 1; AddOrder 1 5 2; AddOrder 1 8 3; AddOrder 1 5 1]
             seeded_db in
  map li_name (fetch_active_session_orders 1 d) = ["Cola"; "Pizza"]%string /\
  map li_total_qty (fetch_active_session_orders 1 d) = [3; 3] /\
  (Qsum (map li_total_amount (fetch_active_session_orders 1 d))
   == get_active_session_order_total 1 d)%Q.
Proof.
  intros d. split; [reflexivity|]. split; [reflexivity|].
  apply (bill_lines_sum_to_total 1 d).
  - apply (run_products _ seeded_db seeded_db_products).
  - apply (run_orders_refer _ seeded_db seeded_db_orders_refer).
Defined.

(** * The handlers of the user interface *)

(** A button press leaves the database as it was or performs one
    operation of the data-access module. *)
Lemma ui_step_is_step (d : db) (e : ui_event) :
  ui_step d e = d \/ exists op, ui_step d e = step d op.
Proof.
  destruct e as [now t ty m|t sel qty|ns ne nc sel|sel]; simpl.
  - unfold SessionStartWindow.start_session.
    destruct (fetch_table t d) as [table|]; [|auto].
    destruct (t_status table =? STATUS_OUT_OF_ORDER)%string; [auto|].
    destruct (ty =? "Timed")%string.
    + destruct m as [m|]; [|auto]. right. exists (StartTimed now t m). reflexivity.
    + right. exists (StartUnlimited now t). reflexivity.
  - unfold OrderWindow.add_order.
    destruct sel as [pid|]; [|auto].
    destruct (int_or_one qty) as [q|]; [|auto].
    destruct (q <=? 0); [auto|].
    right. exists (AddOrder t pid q). simpl.
    destruct (add_order t pid q d) as [[|] d']; reflexivity.
  - unfold CafeApp.close_bill.
    destruct sel as [t|]; [|auto].
    destruct (fetch_table t d) as [table|]; [|auto].
    destruct (negb (t_status table =? STATUS_OCCUPIED)%string); [auto|].
    right. exists (EndSession ns ne nc t). simpl.
    destruct (end_session ns ne nc t d) as [[c m] d']. reflexivity.
  - destruct sel as [t|]; [|auto].
    right. exists (MarkOutOfOrder t). reflexivity.
Qed.

Lemma ui_step_sessions_pk (d : db) (e : ui_event) :
  sessions_pk d -> sessions_pk (ui_step d e).
Proof.
  intros H. destruct (ui_step_is_step d e) as [->|[op ->]];
    [exact H|apply step_sessions_pk; exact H].
Qed.

Lemma filter_update_where_same {A : Type} (q p : A -> bool) (f : A -> A) (l : list A) :
  (forall r, In r l -> q r = true -> p r = false) ->
  (forall r, q (f r) = q r) ->
  filter q (update_where p f l) = filter q l.
Proof.
  intros Hqp Hf. induction l as [|x l IH]; simpl; [reflexivity|].
  rewrite IH by (intros r Hr; apply Hqp; simpl; auto).
  destruct (p x) eqn:Hp; [|reflexivity].
  rewrite Hf. destruct (q x) eqn:Hq; [|reflexivity].
  rewrite (Hqp x) in Hp by (simpl; auto). discriminate.
Qed.

Lemma find_filter_and {A : Type} (q r : A -> bool) (l : list A) :
  find (fun x => q x && r x) l = find r (filter q l).
Proof.
  induction l as [|x l IH]; simpl; [reflexivity|].
  destruct (q x); simpl; [|exact IH]. destruct (r x); [reflexivity|exact IH].
Qed.

Lemma fetch_by_sessions_of (table_id : Z) (d d' : db) :
  sessions_of table_id d' = sessions_of table_id d ->
  fetch_active_session table_id d' = fetch_active_session table_id d.
Proof.
  intros H. unfold fetch_active_session, is_active.
  rewrite !find_filter_and. unfold sessions_of in H. rewrite H. reflexivity.
Qed.

Lemma shows_out_of_order_fetch (table_id : Z) (d : db) (table : table_row) :
  shows_out_of_order table_id d ->
  fetch_table table_id d = Some table ->
  t_status table = STATUS_OUT_OF_ORDER.
Proof.
  intros Hshow Hf. unfold fetch_table in Hf. apply find_some in Hf.
  destruct Hf as [Hin Hid]. apply Z.eqb_eq in Hid. apply Hshow; assumption.
Qed.

Lemma shows_out_of_order_update (table_id t : Z) (f : table_row -> table_row) (d : db) :
  (table_id = t -> forall r, t_status (f r) = STATUS_OUT_OF_ORDER) ->
  (forall r, t_id (f r) = t_id r) ->
  shows_out_of_order table_id d ->
  forall r, In r (update_where (fun r => t_id r =? t) f (tables d)) ->
            t_id r = table_id -> t_status r = STATUS_OUT_OF_ORDER.
Proof.
  intros Hf Hid Hshow r' Hin Hr'. apply in_update_where in Hin.
  destruct Hin as (r & Hr & ->).
  destruct (Z.eqb_spec (t_id r) t) as [E|N].
  - rewrite Hid in Hr'. apply Hf. congruence.
  - apply Hshow; assumption.
Qed.

Lemma insert_session_blocked (table_id t now : Z) (kind : string)
    (planned : option Z) (rate : Q) (d : db) :
  t <> table_id ->
  shows_out_of_order table_id d ->
  shows_out_of_order table_id (insert_session t now kind planned rate d) /\
  sessions_of table_id (insert_session t now kind planned rate d)
  = sessions_of table_id d.
Proof.
  intros Hne Hshow. split.
  - intros r Hin. simpl in Hin. revert r Hin.
    apply shows_out_of_order_update; auto. intros E. congruence.
  - unfold sessions_of. simpl. rewrite filter_app. simpl.
    destruct (Z.eqb_spec t table_id); [contradiction|]. apply app_nil_r.
Qed.

Lemma ui_step_blocked (table_id : Z) (d : db) (e : ui_event) :
  sessions_pk d ->
  shows_out_of_order table_id d ->
  shows_out_of_order table_id (ui_step d e) /\
  sessions_of table_id (ui_step d e) = sessions_of table_id d.
Proof.
  intros Hpk Hshow.
  destruct e as [now t ty m|t sel qty|ns ne nc sel|sel]; simpl.
  - unfold SessionStartWindow.start_session.
    destruct (fetch_table t d) as [table|] eqn:Ht; [|auto].
    destruct (String.eqb_spec (t_status table) STATUS_OUT_OF_ORDER) as [E|N]; [auto|].
    assert (Hne : t <> table_id).
    { intros ->. apply N. eapply shows_out_of_order_fetch; eauto. }
    destruct (ty =? "Timed")%string.
    + destruct m as [m|]; [|auto]. simpl. unfold start_timed_session.
      destruct (fetch_active_session t d); [auto|].
      apply insert_session_blocked; assumption.
    + simpl. unfold start_unlimited_session.
      destruct (fetch_active_session t d); [auto|].
      apply insert_session_blocked; assumption.
  - unfold OrderWindow.add_order.
    destruct sel as [pid|]; [|auto].
    destruct (int_or_one qty) as [q|]; [|auto].
    destruct (q <=? 0); [auto|].
    destruct (add_order_inv t pid q d); simpl; auto.
  - unfold CafeApp.close_bill.
    destruct sel as [t|]; [|auto].
    destruct (fetch_table t d) as [table|] eqn:Ht; [|auto].
    destruct (String.eqb_spec (t_status table) STATUS_OCCUPIED) as [E|N]; [|auto].
    assert (Hne : t <> table_id).
    { intros ->. rewrite (shows_out_of_order_fetch _ _ _ Hshow Ht) in E. discriminate. }
    simpl. unfold end_session.
    destruct (fetch_active_session t d) as [a|] eqn:Ha; simpl; [|auto].
    destruct (_calculate_time_charge ns ne a) as [c mins]. simpl. split.
    + intros r Hin. simpl in Hin. revert r Hin.
      apply shows_out_of_order_update; auto. intros E'. congruence.
    + unfold sessions_of. simpl. apply filter_update_where_same; [|reflexivity].
      intros r Hr Hq. apply Z.eqb_eq in Hq.
      destruct (Z.eqb_spec (s_id r) (s_id a)) as [E'|]; [|reflexivity].
      exfalso. unfold fetch_active_session in Ha. apply find_some in Ha.
      destruct Ha as [Hina Hact].
      assert (r = a) by (apply (pk_unique s_id (sessions d)); auto). subst r.
      unfold is_active in Hact. apply andb_prop in Hact. destruct Hact as [E1 _].
      apply Z.eqb_eq in E1. congruence.
  - destruct sel as [t|]; [|auto]. simpl. split; [|reflexivity].
    intros r Hin. simpl in Hin. revert r Hin.
    apply shows_out_of_order_update; auto.
Qed.

Lemma ui_run_blocked (table_id : Z) (events : list ui_event) (d : db) :
  sessions_pk d ->
  shows_out_of_order table_id d ->
  shows_out_of_order table_id (ui_run events d) /\
  sessions_of table_id (ui_run events d) = sessions_of table_id d.
Proof.
  revert d. unfold ui_run.
  induction events as [|e events IH]; intros d Hpk Hshow; simpl; [auto|].
  destruct (ui_step_blocked table_id d e Hpk Hshow) as [H1 H2].
  destruct (IH (ui_step d e) (ui_step_sessions_pk d e Hpk) H1) as [H3 H4].
  split; [exact H3|congruence].
Qed.

(** Once a table has been marked out of order, nothing the user
    interface offers starts or closes a session on it: through every
    sequence of button presses the rows of the table keep the status
    OutOfOrder, its sessions stay exactly as they were, and a session
    that was open when the table was marked stays open and is never
    billed, close-bill answering that there is no active session. *)
Theorem out_of_order_table_is_stuck (table_id : Z) (d0 : db) (events : list ui_event) :
  sessions_pk d0 ->
  let d := snd (CafeApp.mark_out_of_order (Some table_id) d0) in
  shows_out_of_order table_id (ui_run events d) /\
  sessions_of table_id (ui_run events d) = sessions_of table_id d0 /\
  fetch_active_session table_id (ui_run events d) = fetch_active_session table_id d0 /\
  (forall now_start now_end now_close,
     CafeApp.close_bill now_start now_end now_close (Some table_id) (ui_run events d)
     = (ShowError "No active session.", ui_run events d)).
Proof.
  intros Hpk d.
  assert (Hd : sessions_pk d /\ shows_out_of_order table_id d /\
               sessions_of table_id d = sessions_of table_id d0).
  { subst d. simpl. split; [exact Hpk|]. split; [|reflexivity].
    intros r Hin Hid. simpl in Hin. apply in_update_where in Hin.
    destruct Hin as (r0 & Hr0 & ->).
    destruct (Z.eqb_spec (t_id r0) table_id) as [E|N]; [reflexivity|].
    contradiction. }
  clearbody d. destruct Hd as (Hpk' & Hshow & Hsess). clear Hpk.
  destruct (ui_run_blocked table_id events d Hpk' Hshow) as [Hshow' Hsess']. rewrite Hsess in Hsess'.
  split; [exact Hshow'|]. split; [exact Hsess'|].
  split; [apply fetch_by_sessions_of; exact Hsess'|].
  intros ns ne nc. unfold CafeApp.close_bill.
  destruct (fetch_table table_id (ui_run events d)) as [table|] eqn:Ht; [|reflexivity].
  rewrite (shows_out_of_order_fetch _ _ _ Hshow' Ht). reflexivity.
Qed.

Lemma out_of_order_table_is_stuck_witness :
  let d0 := start_unlimited_session 0 4 seeded_db in
  let events := [CloseBillPressed 0 60000000 60000000 (Some 4);
                 StartPressed 70000000 4 "Timed" (Some 30);
                 OrderPressed 4 (Some 1) Blank;
                 CloseBillPressed 0 90000000 90000000 (Some 4)] in
  fetch_active_session 4 d0 <> None /\
  fetch_active_session 4
    (ui_run events (snd (CafeApp.mark_out_of_order (Some 4) d0)))
  = fetch_active_session 4 d0.
Proof.
  intros d0 events. split; [discriminate|].
  apply (out_of_order_table_is_stuck 4 d0 events).
  unfold sessions_pk. vm_compute. repeat constructor. simpl. tauto.
Defined.

(** The order window changes the database only by a successful
    [add_order] of a selected product with a quantity of at least 1 (a
    blank quantity field counting as 1); with no product selected, a
    quantity that is not a positive number, or a refused order, it
    shows a warning or an error and the database is as it was. *)
Theorem order_window_add_order (table_id : Z) (selected_product_id : option Z)
    (qty_entry : entry_text) (d : db) :
  let r := OrderWindow.add_order table_id selected_product_id qty_entry d in
  (fst r = ShowInfo "Order added." <->
   exists product_id qty,
     selected_product_id = Some product_id /\
     int_or_one qty_entry = Some qty /\ 1 <= qty /\
     add_order table_id product_id qty d = (true, snd r)) /\
  (fst r <> ShowInfo "Order added." -> snd r = d) /\
  (selected_product_id = None -> fst r = ShowWarning "Please select a product.") /\
  (forall product_id, selected_product_id = Some product_id ->
     (forall qty, int_or_one qty_entry = Some qty -> qty <= 0) ->
     fst r = ShowError "Invalid quantity.").
Proof.
  intros r. subst r. unfold OrderWindow.add_order.
  destruct selected_product_id as [pid|].
  2:{ simpl. repeat split; try discriminate; auto.
      intros (p & q & H & _). discriminate. }
  destruct (int_or_one qty_entry) as [q|] eqn:Hq.
  2:{ simpl. repeat split; try discriminate; auto.
      intros (p & q & _ & H & _). discriminate. }
  destruct (Z.leb_spec q 0) as [Hle|Hgt].
  { simpl. repeat split; try discriminate; auto.
    intros (p & q' & _ & H & H1 & _). injection H as <-. lia. }
  pose proof (add_order_inv table_id pid q d) as Hinv.
  destruct (add_order table_id pid q d) as [ok d'] eqn:Hadd.
  destruct ok; simpl.
  - split; [split|split; [|split]].
    + intros _. exists pid, q. repeat split; auto. lia.
    + reflexivity.
    + intros H. exfalso. apply H. reflexivity.
    + discriminate.
    + intros pid' _ Hall. specialize (Hall q eq_refl). lia.
  - assert (d' = d) by (inversion Hinv; reflexivity). subst d'.
    split; [split|split; [|split]].
    + discriminate.
    + intros (p' & q' & Hp & Hq' & _ & Hadd').
      injection Hp as <-. injection Hq' as <-. congruence.
    + reflexivity.
    + discriminate.
    + intros pid' _ Hall. specialize (Hall q eq_refl). lia.
Qed.

Lemma order_window_add_order_witness :
  fst (OrderWindow.add_order 2 (Some 7) Blank (start_unlimited_session 0 2 seeded_db))
  = ShowInfo "Order added." /\
  fst (OrderWindow.add_order 2 (Some 7) (Number (-3)) (start_unlimited_session 0 2 seeded_db))
  = ShowError "Invalid quantity." /\
  snd (OrderWindow.add_order 2 (Some 7) (Number 101) (start_unlimited_session 0 2 seeded_db))
  = start_unlimited_session 0 2 seeded_db.
Proof.
  split; [|split].
  - apply (proj1 (order_window_add_order 2 (Some 7) Blank
                    (start_unlimited_session 0 2 seeded_db))).
    exists 7, 1. repeat split. lia.
  - apply (proj2 (proj2 (proj2 (order_window_add_order 2 (Some 7) (Number (-3))
                                  (start_unlimited_session 0 2 seeded_db)))) 7 eq_refl).
    intros qty H. injection H as <-. lia.
  - apply (proj1 (proj2 (order_window_add_order 2 (Some 7) (Number 101)
                           (start_unlimited_session 0 2 seeded_db)))).
    discriminate.
Defined.




Lemma run_same_session (ops : list operation) (d : db) (i : nat) (s : session_row) :
  nth_error (sessions d) i = Some s ->
  exists s', nth_error (sessions (run ops d)) i = Some s' /\ same_session s s'.
Proof.
  revert d s. unfold run. induction ops as [|op ops IH]; intros d s Hi; simpl.
  - exists s. split; [exact Hi|apply same_session_refl].
  - destruct (step_same_session d op i s Hi) as (s1 & H1 & S1).
    destruct (IH _ _ H1) as (s2 & H2 & S2).
    exists s2. split; [exact H2|]. eapply same_session_trans; eauto.
Qed.

(** The price the start window shows for a timed session is the price
    charged: when a timed session of a non-zero duration is started on
    a table without active session, then after any operations that
    leave this session open, [end_session] returns as charge the
    amount [update_price] computed before the start. *)
Theorem upfront_price_is_charged
    (now table_id minutes now_start now_end now_close : Z)
    (ops : list operation) (d : db) :
  at_most_one_open d ->
  fetch_active_session table_id d = None ->
  minutes <> 0 ->
  let started := run ops (start_timed_session now table_id minutes d) in
  (forall s, nth_error (sessions started) (List.length (sessions d)) = Some s ->
             s_end_ts s = None) ->
  Some (fst (fst (end_session now_start now_end now_close table_id started)))
  = SessionStartWindow.update_price "Timed" (Some minutes) table_id d /\
  snd (fst (end_session now_start now_end now_close table_id started)) = minutes.
Proof.
  intros Hone Hnone Hm started Hopen.
  set (d1 := start_timed_session now table_id minutes d) in *.
  assert (Hrow : nth_error (sessions d1) (List.length (sessions d))
                 = Some (mk_session (next_id (map s_id (sessions d))) table_id
                           (Some (isoformat_seconds now)) None "Timed" (Some minutes)
                           (Some (get_hourly_rate table_id d)))).
  { unfold d1, start_timed_session. rewrite Hnone. simpl.
    rewrite nth_error_app2 by lia. rewrite Nat.sub_diag. reflexivity. }
  destruct (run_same_session ops d1 _ _ Hrow) as (s' & Hs' & Hsame).
  fold started in Hs'. specialize (Hopen s' Hs').
  destruct Hsame as (_ & Htab & _ & Hkind & Hplan & Hrate). simpl in *.
  assert (Hone' : at_most_one_open started).
  { apply run_one_open. unfold d1, start_timed_session. rewrite Hnone.
    apply insert_session_one_open; assumption. }
  assert (Hact : is_active table_id s' = true).
  { unfold is_active. rewrite Htab, Hopen, Z.eqb_refl. reflexivity. }
  assert (Hin : In s' (sessions started)) by (eapply nth_error_In; eauto).
  assert (Hf : fetch_active_session table_id started = Some s').
  { destruct (fetch_active_session table_id started) as [a|] eqn:Ha.
    - f_equal. symmetry.
      apply (find_only (is_active table_id) (sessions started)); auto.
    - exfalso. exact (find_in_some _ _ _ Hin Hact Ha). }
  unfold end_session. rewrite Hf. simpl.
  rewrite (time_charge_planned _ _ minutes) by assumption.
  unfold SessionStartWindow.update_price, hourly_of. simpl. rewrite Hrate.
  split; reflexivity.
Qed.

Lemma upfront_price_is_charged_witness :
  Some (fst (fst (end_session 0 9000000000 9000000000 2
                    (run [AddOrder 2 1 1; StartUnlimited 5 3; MarkOutOfOrder 2]
                       (start_timed_session 0 2 120 seeded_db)))))
  = SessionStartWindow.update_price "Timed" (Some 120) 2 seeded_db /\
  snd (fst (end_session 0 9000000000 9000000000 2
              (run [AddOrder 2 1 1; StartUnlimited 5 3; MarkOutOfOrder 2]
                 (start_timed_session 0 2 120 seeded_db)))) = 120.
Proof.
  apply (upfront_price_is_charged 0 2 120 0 9000000000 9000000000
           [AddOrder 2 1 1; StartUnlimited 5 3; MarkOutOfOrder 2] seeded_db).
  - intros t. simpl. lia.
  - reflexivity.
  - discriminate.
  - intros s H. vm_compute in H. injection H as <-. reflexivity.
Defined.

(** * End-of-day reports *)

(** With distinct product ids and every order naming a product, the
    join with [products] keeps each order row of the day once. *)
Lemma day_product_rows_orders (today : Z) (d : db) :
  products_pk d -> orders_refer_products d ->
  map snd (day_product_rows today d) = day_order_rows today d.
Proof.
  intros Hpk Href. unfold day_product_rows, day_order_rows.
  unfold orders_refer_products in Href.
  induction (orders d) as [|o os IH]; simpl; [reflexivity|].
  rewrite map_app, IH by (intros o' Ho'; apply Href; simpl; auto).
  f_equal.
  destruct (Href o) as (p & Hp & Hid); [simpl; auto|].
  rewrite <- Hid. rewrite (filter_key_only p_id (products d) p Hpk Hp).
  induction (filter _ (sessions d)) as [|s ss IHs]; simpl in *; [reflexivity|].
  f_equal. exact IHs.
Qed.

Lemma group_keys {R : Type} (key : R -> string) (rows : list R) :
  NoDup (sort_by String.leb (nodup string_dec (map key rows))) /\
  forall r, In r rows ->
    In (key r) (sort_by String.leb (nodup string_dec (map key rows))).
Proof.
  split.
  - apply (Permutation_NoDup (Permutation_sym (sort_by_perm _ _))). apply NoDup_nodup.
  - intros r Hr. apply (Permutation_in _ (Permutation_sym (sort_by_perm _ _))).
    apply nodup_In. apply in_map. exact Hr.
Qed.

Lemma report_sums (today_sessions today : Z) (clock : nat -> Z * Z) (d : db) :
  products_pk d -> orders_refer_products d ->
  let r := get_end_of_day_report today_sessions today today clock d in
  round2 (Qsum (map snd (category_totals r))) = order_revenue r /\
  NoDup (map fst (category_totals r)) /\
  Zsum (map snd (get_end_of_day_product_report today d)) = order_count r /\
  NoDup (map fst (get_end_of_day_product_report today d)).
Proof.
  intros Hpk Href r. subst r. simpl.
  unfold get_end_of_day_product_report, group_sum_Q, group_sum_Z.
  rewrite !map_map. simpl. rewrite !map_id.
  pose proof (day_product_rows_orders today d Hpk Href) as Hrows.
  split; [|split; [|split]].
  - apply round2_comp.
    destruct (group_keys (fun r => p_category (fst r)) (day_product_rows today d))
      as [Hnd Hall].
    rewrite (Qsum_groups (fun r => p_category (fst r)) (fun r => o_amount (snd r)))
      by assumption.
    rewrite <- Hrows, map_map. reflexivity.
  - apply (group_keys (fun r => p_category (fst r))).
  - destruct (group_keys (fun r => p_name (fst r)) (day_product_rows today d))
      as [Hnd Hall].
    rewrite (Zsum_groups (fun r => p_name (fst r)) (fun r => o_quantity (snd r)))
      by assumption.
    rewrite <- Hrows, map_map. reflexivity.
  - apply (group_keys (fun r => p_name (fst r))).
Qed.

(** The joined rows of a day are the pairs of a product and an order
    that names it and belongs to a session closed on the day. *)
Lemma day_product_rows_in (today : Z) (d : db) (p : product_row) (o : order_row) :
  In (p, o) (day_product_rows today d) <->
  In o (orders d) /\ In p (products d) /\ p_id p = o_product_id o /\
  exists s, In s (sessions d) /\ s_id s = o_session_id o /\ closed_on today s = true.
Proof.
  unfold day_product_rows. rewrite in_flat_map. split.
  - intros (o' & Ho & H). apply in_flat_map in H. destruct H as (s & Hs & H).
    apply in_map_iff in H. destruct H as (p' & Hp & Hin).
    injection Hp as -> ->.
    apply filter_In in Hs. destruct Hs as [Hs Hc]. apply andb_prop in Hc.
    destruct Hc as [Hid Hcl]. apply Z.eqb_eq in Hid.
    apply filter_In in Hin. destruct Hin as [Hin Hpid]. apply Z.eqb_eq in Hpid.
    repeat split; auto. exists s. auto.
  - intros (Ho & Hp & Hpid & s & Hs & Hid & Hcl).
    exists o. split; [exact Ho|]. apply in_flat_map. exists s. split.
    + apply filter_In. split; [exact Hs|]. rewrite Hid, Z.eqb_refl, Hcl. reflexivity.
    + apply in_map_iff. exists p. split; [reflexivity|].
      apply filter_In. split; [exact Hp|]. apply Z.eqb_eq. exact Hpid.
Qed.

Lemma group_sum_Q_entries {R : Type} (key : R -> string) (val : R -> Q) (rows : list R) :
  (forall n v, In (n, v) (group_sum_Q key val rows) ->
     v = Qsum (map val (filter (fun r => (key r =? n)%string) rows)) /\
     exists r, In r rows /\ key r = n) /\
  (forall r, In r rows -> exists v, In (key r, v) (group_sum_Q key val rows)).
Proof.
  unfold group_sum_Q. split.
  - intros n v H. apply in_map_iff in H. destruct H as (n' & E & Hn).
    injection E as -> <-. split; [reflexivity|].
    apply (Permutation_in _ (sort_by_perm _ _)) in Hn.
    apply nodup_In in Hn. apply in_map_iff in Hn. destruct Hn as (r & Hr & Hin).
    exists r. auto.
  - intros r Hr. eexists. apply in_map_iff. exists (key r). split; [reflexivity|].
    apply (proj2 (group_keys key rows)). exact Hr.
Qed.

Lemma group_sum_Z_entries {R : Type} (key : R -> string) (val : R -> Z) (rows : list R) :
  (forall n v, In (n, v) (group_sum_Z key val rows) ->
     v = Zsum (map val (filter (fun r => (key r =? n)%string) rows)) /\
     exists r, In r rows /\ key r = n) /\
  (forall r, In r rows -> exists v, In (key r, v) (group_sum_Z key val rows)).
Proof.
  unfold group_sum_Z. split.
  - intros n v H. apply in_map_iff in H. destruct H as (n' & E & Hn).
    injection E as -> <-. split; [reflexivity|].
    apply (Permutation_in _ (sort_by_perm _ _)) in Hn.
    apply nodup_In in Hn. apply in_map_iff in Hn. destruct Hn as (r & Hr & Hin).
    exists r. auto.
  - intros r Hr. eexists. apply in_map_iff. exists (key r). split; [reflexivity|].
    apply (proj2 (group_keys key rows)). exact Hr.
Qed.

(** The breakdowns of the reports add up, entry by entry: when the
    order and category queries read the same date, on a database with
    distinct product ids where every order names a product, the
    category totals have one entry for each category of a product
    ordered in a session closed that day and no other entry, the value
    of an entry being the sum of the amounts of that category, and they
    sum to the order revenue; the product report has one entry for each
    such product name and no other, the value being the sum of the
    quantities of that name, and they sum to the order count. *)
Theorem report_breakdowns_add_up (today_sessions today : Z)
    (clock : nat -> Z * Z) (d : db) :
  products_pk d -> orders_refer_products d ->
  let r := get_end_of_day_report today_sessions today today clock d in
  round2 (Qsum (map snd (category_totals r))) = order_revenue r /\
  NoDup (map fst (category_totals r)) /\
  Zsum (map snd (get_end_of_day_product_report today d)) = order_count r /\
  NoDup (map fst (get_end_of_day_product_report today d)) /\
  (forall p o s,
     In o (orders d) -> In p (products d) -> In s (sessions d) ->
     p_id p = o_product_id o -> s_id s = o_session_id o -> closed_on today s = true ->
     (exists v, In (p_category p, v) (category_totals r)) /\
     (exists q, In (p_name p, q) (get_end_of_day_product_report today d))) /\
  (forall c v, In (c, v) (category_totals r) ->
     v = Qsum (map (fun x => o_amount (snd x))
                 (filter (fun x => (p_category (fst x) =? c)%string)
                    (day_product_rows today d))) /\
     exists p o s,
       In o (orders d) /\ In p (products d) /\ In s (sessions d) /\
       p_id p = o_product_id o /\ s_id s = o_session_id o /\
       closed_on today s = true /\ p_category p = c) /\
  (forall n q, In (n, q) (get_end_of_day_product_report today d) ->
     q = Zsum (map (fun x => o_quantity (snd x))
                 (filter (fun x => (p_name (fst x) =? n)%string)
                    (day_product_rows today d))) /\
     exists p o s,
       In o (orders d) /\ In p (products d) /\ In s (sessions d) /\
       p_id p = o_product_id o /\ s_id s = o_session_id o /\
       closed_on today s = true /\ p_name p = n).
Proof.
  intros Hpk Href r.
  destruct (report_sums today_sessions today clock d Hpk Href) as (H1 & H2 & H3 & H4).
  fold r in H1, H2, H3.
  repeat (split; [assumption|]).
  destruct (group_sum_Q_entries (fun x => p_category (fst x)) (fun x => o_amount (snd x))
              (day_product_rows today d)) as [Hc1 Hc2].
  destruct (group_sum_Z_entries (fun x => p_name (fst x)) (fun x => o_quantity (snd x))
              (day_product_rows today d)) as [Hn1 Hn2].
  split; [|split].
  - intros p o s Ho Hp Hs Hpid Hid Hcl.
    assert (Hin : In (p, o) (day_product_rows today d)).
    { apply day_product_rows_in. repeat split; auto. exists s. auto. }
    split; [exact (Hc2 _ Hin)|exact (Hn2 _ Hin)].
  - intros c v Hv. destruct (Hc1 c v Hv) as (E & (p & o) & Hin & Hk).
    split; [exact E|]. apply day_product_rows_in in Hin.
    destruct Hin as (Ho & Hp & Hpid & s & Hs & Hid & Hcl).
    exists p, o, s. repeat split; auto.
  - intros n q Hq. destruct (Hn1 n q Hq) as (E & (p & o) & Hin & Hk).
    split; [exact E|]. apply day_product_rows_in in Hin.
    destruct Hin as (Ho & Hp & Hpid & s & Hs & Hid & Hcl).
    exists p, o, s. repeat split; auto.
Qed.

Lemma report_breakdowns_add_up_witness :
  let d := run [StartUnlimited 0 1; AddOrder 1 5 2; AddOrder 1 8 3; AddOrder 1 1 1;
                EndSession 0 3600000000 3600000000 1] seeded_db in
  let r := get_end_of_day_report 0 0 0 (fun _ => (0, 7200000000)) d in
  map fst (category_totals r) = ["Drink"; "Food"]%string /\
  get_end_of_day_product_report 0 d
  = [("Cheese Toast"%string, 1); ("Cola"%string, 3); ("Pizza"%string, 2)] /\
  round2 (Qsum (map snd (category_totals r))) = order_revenue r /\
  Zsum (map snd (get_end_of_day_product_report 0 d)) = order_count r.
Proof.
  intros d r.
  destruct (report_breakdowns_add_up 0 0 (fun _ => (0, 7200000000)) d
              (proj1 (run_products _ seeded_db seeded_db_products))
              (run_orders_refer _ seeded_db seeded_db_orders_refer))
    as (H1 & _ & H3 & _).
  split; [reflexivity|]. split; [reflexivity|]. split; assumption.
Defined.

Lemma session_revenue_from_mono (clock clock' : nat -> Z * Z) (ss : list session_row) :
  (forall s, In s ss -> (0 <= hourly_of s)%Q) ->
  (forall k, fst (clock k) = fst (clock' k) /\ snd (clock k) <= snd (clock' k)) ->
  forall k acc acc',
    (acc <= acc')%Q ->
    (session_revenue_from clock k ss acc <= session_revenue_from clock' k ss acc')%Q.
Proof.
  intros Hrate Hclock. induction ss as [|s ss IH]; intros k acc acc' Hacc; simpl.
  - exact Hacc.
  - apply IH; [intros x Hx; apply Hrate; simpl; auto|].
    destruct (Hclock k) as [Hs He]. rewrite Hs.
    apply Qplus_le_compat; [exact Hacc|].
    apply charge_grows_with_time_aux; [apply Hrate; simpl; auto|exact He].
Qed.

Lemma session_revenue_from_planned (clock clock' : nat -> Z * Z) (ss : list session_row) :
  (forall s, In s ss ->
     s_kind s = "Timed"%string /\ exists m, s_planned_minutes s = Some m /\ m <> 0) ->
  forall k acc,
    session_revenue_from clock k ss acc = session_revenue_from clock' k ss acc.
Proof.
  intros Hss. induction ss as [|s ss IH]; intros k acc; simpl; [reflexivity|].
  destruct (Hss s) as (Hk & m & Hp & Hm); [simpl; auto|].
  rewrite !(time_charge_planned _ _ m) by assumption.
  apply IH. intros x Hx. apply Hss. simpl. auto.
Qed.

(** The session revenue of the report is not what was billed: the
    charge of every session closed that day is computed again with the
    clock as it reads during the report.  With non-negative rates,
    later readings can only raise it, and it is free of the clock
    exactly when the sessions are Timed with a non-zero planned
    duration. *)
Theorem report_session_revenue_follows_clock
    (today_sessions today_orders today_categories : Z)
    (clock clock' : nat -> Z * Z) (d : db) :
  (forall s, In s (sessions d) -> (0 <= hourly_of s)%Q) ->
  (forall k, fst (clock k) = fst (clock' k) /\ snd (clock k) <= snd (clock' k)) ->
  (session_revenue
     (get_end_of_day_report today_sessions today_orders today_categories clock d)
   <= session_revenue
        (get_end_of_day_report today_sessions today_orders today_categories clock' d))%Q
  /\
  ((forall s, In s (sessions d) -> closed_on today_sessions s = true ->
      s_kind s = "Timed"%string /\ exists m, s_planned_minutes s = Some m /\ m <> 0) ->
   session_revenue
     (get_end_of_day_report today_sessions today_orders today_categories clock d)
   = session_revenue
       (get_end_of_day_report today_sessions today_orders today_categories clock' d)).
Proof.
  intros Hrate Hclock. simpl. split.
  - apply round2_mono. apply session_revenue_from_mono; [|exact Hclock|apply Qle_refl].
    intros s Hs. apply filter_In in Hs. apply Hrate. tauto.
  - intros Hplanned. f_equal. apply session_revenue_from_planned.
    intros s Hs. apply filter_In in Hs. destruct Hs. apply Hplanned; assumption.
Qed.

Lemma report_session_revenue_follows_clock_witness :
  let d := run [StartUnlimited 0 7; EndSession 0 1800000000 1800000000 7] seeded_db in
  let at_close := fun _ : nat => (0, 1800000000) in
  let at_report := fun _ : nat => (0, 10800000000) in
  fst (fst (end_session 0 1800000000 1800000000 7 (start_unlimited_session 0 7 seeded_db)))
  = (1000 # 100)%Q /\
  session_revenue (get_end_of_day_report 0 0 0 at_close d) = (1000 # 100)%Q /\
  session_revenue (get_end_of_day_report 0 0 0 at_report d) = (6000 # 100)%Q /\
  (session_revenue (get_end_of_day_report 0 0 0 at_close d)
   <= session_revenue (get_end_of_day_report 0 0 0 at_report d))%Q.
Proof.
  intros d at_close at_report.
  split; [reflexivity|]. split; [reflexivity|]. split; [reflexivity|].
  apply (proj1 (report_session_revenue_follows_clock 0 0 0 at_close at_report d
                  ltac:(intros s Hs; vm_compute in Hs;
                        destruct Hs as [<-|[]]; discriminate)
                  ltac:(intros k; simpl; split; [reflexivity|lia]))).
Defined.

(** A day on which no session was closed has an empty report: open
    sessions, sessions closed on other days and their orders count for
    nothing. *)
Theorem report_of_a_day_without_close (today : Z) (clock : nat -> Z * Z) (d : db) :
  (forall s, In s (sessions d) -> closed_on today s = false) ->
  get_end_of_day_report today today today clock d
  = mk_report (round2 0) (round2 0) (round2 (0 + 0)) 0 [] /\
  get_end_of_day_product_report today d = [].
Proof.
  intros Hnone.
  assert (Hs : filter (closed_on today) (sessions d) = [])
    by (apply filter_nil; exact Hnone).
  assert (Ho : day_order_rows today d = []).
  { unfold day_order_rows. apply flat_map_nil. intros o _.
    rewrite filter_nil; [reflexivity|].
    intros s Hin. rewrite (Hnone s Hin). apply andb_false_r. }
  assert (Hp : day_product_rows today d = []).
  { unfold day_product_rows. apply flat_map_nil. intros o _.
    rewrite (filter_nil (fun s => (s_id s =? o_session_id o) && closed_on today s));
      [reflexivity|].
    intros s Hin. rewrite (Hnone s Hin). apply andb_false_r. }
  unfold get_end_of_day_report, get_end_of_day_product_report.
  rewrite Hs, Ho, Hp. split; reflexivity.
Qed.

Lemma report_of_a_day_without_close_witness :
  let d := run [StartUnlimited 0 1; AddOrder 1 5 2; StartTimed 0 2 60; AddOrder 2 1 1;
                EndSession 0 3600000000 3600000000 2] seeded_db in
  get_end_of_day_report 1 1 1 (fun _ => (0, 90000000000)) d
  = mk_report (round2 0) (round2 0) (round2 (0 + 0)) 0 [] /\
  get_end_of_day_product_report 1 d = [].
Proof.
  intros d. apply (report_of_a_day_without_close 1 (fun _ => (0, 90000000000)) d).
  intros s Hs. vm_compute in Hs. destruct Hs as [<-|[<-|[]]]; reflexivity.
Defined.

(** * Start-up and the start window *)

Lemma init_db_tables (d : db) :
  (tables d = [] /\ tables (init_db d) = tables seeded_db) \/
  (tables d <> [] /\ tables (init_db d) = tables d).
Proof.
  unfold init_db. cbn [tables].
  destruct (tables d) as [|t ts]; [left|right]; (split; [|reflexivity]);
    [reflexivity|discriminate].
Qed.

Lemma init_db_products (d : db) :
  (products d = [] /\ products (init_db d) = products seeded_db) \/
  (products d <> [] /\ products (init_db d) = products d).
Proof.
  unfold init_db. cbn [products].
  destruct (products d) as [|p ps]; [left|right]; (split; [|reflexivity]);
    [reflexivity|discriminate].
Qed.

Lemma init_db_seeded (d : db) :
  tables d <> [] -> products d <> [] -> init_db d = d.
Proof.
  intros Ht Hp. destruct d as [ts ss ps os]. unfold init_db.
  cbn [tables products sessions orders] in *.
  destruct ts as [|t ts]; [contradiction|]. destruct ps as [|p ps]; [contradiction|].
  reflexivity.
Qed.

(** [init_db] can run at every start of the program: it seeds a table
    only when the table is empty, never touches sessions or orders,
    and running it again changes nothing. *)
Theorem init_db_idempotent (d : db) :
  init_db (init_db d) = init_db d /\
  sessions (init_db d) = sessions d /\ orders (init_db d) = orders d /\
  (tables d <> [] -> tables (init_db d) = tables d) /\
  (products d <> [] -> products (init_db d) = products d) /\
  (tables d = [] -> List.length (tables (init_db d)) = 20%nat) /\
  (products d = [] -> List.length (products (init_db d)) = 10%nat).
Proof.
  pose proof (init_db_tables d) as Ht. pose proof (init_db_products d) as Hp.
  split; [|split; [reflexivity|split; [reflexivity|split; [|split; [|split]]]]].
  - apply init_db_seeded.
    + destruct Ht as [[_ E]|[N E]]; rewrite E; [discriminate|exact N].
    + destruct Hp as [[_ E]|[N E]]; rewrite E; [discriminate|exact N].
  - intros H. destruct Ht as [[E _]|[_ E]]; [contradiction|exact E].
  - intros H. destruct Hp as [[E _]|[_ E]]; [contradiction|exact E].
  - intros H. destruct Ht as [[_ E]|[N _]]; [rewrite E; reflexivity|contradiction].
  - intros H. destruct Hp as [[_ E]|[N _]]; [rewrite E; reflexivity|contradiction].
Qed.

Lemma init_db_idempotent_witness :
  tables (init_db (run [StartUnlimited 0 1; AddOrder 1 5 2] seeded_db))
  = tables (run [StartUnlimited 0 1; AddOrder 1 5 2] seeded_db) /\
  List.length (products (init_db empty_db)) = 10%nat.
Proof.
  split.
  - apply (proj1 (proj2 (proj2 (proj2
             (init_db_idempotent (run [StartUnlimited 0 1; AddOrder 1 5 2] seeded_db)))))).
    discriminate.
  - apply (proj2 (proj2 (proj2 (proj2 (proj2 (proj2 (init_db_idempotent empty_db))))))).
    reflexivity.
Defined.

(** The start window starts a session only on a table that exists, is
    not shown out of order and has no active session; the session then
    carries the rate 20 or 30 of the table, never 0.  In every other
    case the database stays as it is, and when the table already has an
    active session nothing is shown either. *)
Theorem start_window_start_session (now table_id : Z) (session_type : string)
    (minutes : option Z) (d : db) :
  let r := SessionStartWindow.start_session now table_id session_type minutes d in
  (snd r <> d ->
   fst r = NoDialog /\
   fetch_active_session table_id d = None /\
   exists table s,
     fetch_table table_id d = Some table /\
     t_status table <> STATUS_OUT_OF_ORDER /\
     fetch_active_session table_id (snd r) = Some s /\
     (s_hourly_rate s = Some 20%Q \/ s_hourly_rate s = Some 30%Q)) /\
  (fetch_active_session table_id d <> None -> snd r = d) /\
  (fetch_table table_id d = None -> r = (ShowError "Table not found.", d)) /\
  (forall table, fetch_table table_id d = Some table ->
     t_status table = STATUS_OUT_OF_ORDER ->
     r = (ShowError "Cannot start a session on an out-of-order table.", d)).
Proof.
  intros r. subst r. unfold SessionStartWindow.start_session.
  assert (Hsame : forall (dlg : dialog),
            (snd (dlg, d) <> d ->
             fst (dlg, d) = NoDialog /\
             fetch_active_session table_id d = None /\
             exists table s,
               fetch_table table_id d = Some table /\
               t_status table <> STATUS_OUT_OF_ORDER /\
               fetch_active_session table_id (snd (dlg, d)) = Some s /\
               (s_hourly_rate s = Some 20%Q \/ s_hourly_rate s = Some 30%Q)) /\
            (fetch_active_session table_id d <> None -> snd (dlg, d) = d)).
  { intros dlg. simpl. split; [intros H; exfalso; apply H; reflexivity|reflexivity]. }
  destruct (fetch_table table_id d) as [table|] eqn:Ht.
  2:{ destruct (Hsame (ShowError "Table not found.")) as [H1 H2].
      split; [exact H1|]. split; [exact H2|]. split; [reflexivity|discriminate]. }
  destruct (String.eqb_spec (t_status table) STATUS_OUT_OF_ORDER) as [E|N].
  { destruct (Hsame (ShowError "Cannot start a session on an out-of-order table."))
      as [H1 H2].
    split; [exact H1|]. split; [exact H2|]. split; [discriminate|reflexivity]. }
  assert (Hrate : get_hourly_rate table_id d = 20%Q \/ get_hourly_rate table_id d = 30%Q).
  { unfold get_hourly_rate. rewrite Ht.
    destruct (t_kind table =? TABLE_KIND_VIP)%string; auto. }
  assert (Hstart : forall kind planned,
            fetch_active_session table_id d = None ->
            exists table' s,
              Some table = Some table' /\
              t_status table' <> STATUS_OUT_OF_ORDER /\
              fetch_active_session table_id
                (insert_session table_id now kind planned (get_hourly_rate table_id d) d)
              = Some s /\
              (s_hourly_rate s = Some 20%Q \/ s_hourly_rate s = Some 30%Q)).
  { intros kind planned Hnone. exists table. eexists.
    rewrite fetch_after_insert by exact Hnone. rewrite Z.eqb_refl.
    split; [reflexivity|]. split; [exact N|]. split; [reflexivity|].
    simpl. destruct Hrate as [-> | ->]; auto. }
  assert (Hlast : forall (x : dialog * db),
            (Some table = None -> x = (ShowError "Table not found.", d)) /\
            (forall table', Some table = Some table' ->
               t_status table' = STATUS_OUT_OF_ORDER ->
               x = (ShowError "Cannot start a session on an out-of-order table.", d))).
  { intros x. split; [discriminate|]. intros table' H1 H2. congruence. }
  destruct (session_type =? "Timed")%string.
  - destruct minutes as [m|].
    + cbn [fst snd]. unfold start_timed_session.
      destruct (fetch_active_session table_id d) eqn:Ha.
      * destruct (Hsame NoDialog) as [H1 H2].
        split; [exact H1|]. split; [exact H2|]. apply Hlast.
      * split; [|split; [congruence|apply Hlast]].
        intros _. split; [reflexivity|]. split; [reflexivity|].
        apply Hstart. reflexivity.
    + destruct (Hsame (ShowError "Invalid duration.")) as [H1 H2].
      split; [exact H1|]. split; [exact H2|]. apply Hlast.
  - cbn [fst snd]. unfold start_unlimited_session.
    destruct (fetch_active_session table_id d) eqn:Ha.
    + destruct (Hsame NoDialog) as [H1 H2].
      split; [exact H1|]. split; [exact H2|]. apply Hlast.
    + split; [|split; [congruence|apply Hlast]].
      intros _. split; [reflexivity|]. split; [reflexivity|].
      apply Hstart. reflexivity.
Qed.

Lemma start_window_start_session_witness :
  (exists table s,
     fetch_table 2 seeded_db = Some table /\
     t_status table <> STATUS_OUT_OF_ORDER /\
     fetch_active_session 2
       (snd (SessionStartWindow.start_session 0 2 "Timed" (Some 60) seeded_db)) = Some s /\
     (s_hourly_rate s = Some 20%Q \/ s_hourly_rate s = Some 30%Q)) /\
  SessionStartWindow.start_session 0 99 "Timed" (Some 60) seeded_db
  = (ShowError "Table not found.", seeded_db).
Proof.
  split.
  - apply (proj1 (start_window_start_session 0 2 "Timed" (Some 60) seeded_db)).
    discriminate.
  - apply (proj1 (proj2 (proj2 (start_window_start_session 0 99 "Timed" (Some 60)
                                  seeded_db)))).
    reflexivity.
Defined.

(** * The buttons and the windows they open *)

(** The guards of the buttons agree with the windows they open, on a
    database where every Occupied table has an active session.  When
    the app opens the order window for a table, an order placed at once
    is refused only for the reason the message gives: the quantity is
    at least 1 and the product is missing or short of stock.  When the
    app opens the start window for a table, a start pressed at once
    with a readable duration shows no error. *)
Theorem windows_open_on_valid_tables (table_id : Z) (d : db) :
  occupied_has_session d ->
  (CafeApp.add_order (Some table_id) d = OpenOrderWindow table_id ->
   forall product_id qty_entry,
     fst (OrderWindow.add_order table_id (Some product_id) qty_entry d)
     = ShowError "Insufficient stock or product not found." ->
     exists qty,
       int_or_one qty_entry = Some qty /\ 1 <= qty /\
       (find (fun p => p_id p =? product_id) (products d) = None \/
        exists row, find (fun p => p_id p =? product_id) (products d) = Some row /\
                    p_stock row < qty)) /\
  (CafeApp.start_session (Some table_id) d = OpenSessionStartWindow table_id ->
   forall now session_type minutes,
     fst (SessionStartWindow.start_session now table_id session_type (Some minutes) d)
     = NoDialog).
Proof.
  intros Hocc. split.
  - unfold CafeApp.add_order. intros Hopen product_id qty_entry.
    destruct (fetch_table table_id d) as [table|] eqn:Ht; [|discriminate].
    destruct (String.eqb_spec (t_status table) STATUS_OCCUPIED) as [E|N];
      [|discriminate].
    assert (Hs : fetch_active_session table_id d <> None).
    { unfold fetch_table in Ht. apply find_some in Ht. destruct Ht as [Hin Hid].
      apply Z.eqb_eq in Hid. rewrite <- Hid. apply Hocc; assumption. }
    unfold OrderWindow.add_order.
    destruct (int_or_one qty_entry) as [q|]; [|discriminate].
    destruct (Z.leb_spec q 0) as [Hle|Hgt]; [discriminate|].
    destruct (add_order_inv table_id product_id q d)
      as [Hn|s Hn Hp|s row Hn Hp Hlt|s row Hn Hp Hle]; simpl.
    + congruence.
    + intros _. exists q. split; [reflexivity|]. split; [lia|]. left. exact Hp.
    + intros _. exists q. split; [reflexivity|]. split; [lia|]. right. eauto.
    + discriminate.
  - unfold CafeApp.start_session, SessionStartWindow.start_session.
    intros Hopen now session_type minutes.
    destruct (fetch_table table_id d) as [table|]; [|discriminate].
    destruct (t_status table =? STATUS_OUT_OF_ORDER)%string; [discriminate|].
    destruct (session_type =? "Timed")%string; reflexivity.
Qed.

Lemma windows_open_on_valid_tables_witness :
  let d := start_unlimited_session 0 2 seeded_db in
  CafeApp.add_order (Some 2) d = OpenOrderWindow 2 /\
  fst (OrderWindow.add_order 2 (Some 5) (Number 31) d)
  = ShowError "Insufficient stock or product not found." /\
  exists qty,
    int_or_one (Number 31) = Some qty /\ 1 <= qty /\
    (find (fun p => p_id p =? 5) (products d) = None \/
     exists row, find (fun p => p_id p =? 5) (products d) = Some row /\
                 p_stock row < qty).
Proof.
  intros d. split; [reflexivity|]. split; [reflexivity|].
  refine (proj1 (windows_open_on_valid_tables 2 d _) eq_refl 5 (Number 31) eq_refl).
  intros r Hin Hst. vm_compute in Hin.
  repeat (destruct Hin as [<-|Hin]; [discriminate|]). destruct Hin.
Defined.

(** * The states the program reaches *)

Lemma ui_run_is_run (events : list ui_event) (d : db) :
  exists ops, ui_run events d = run ops d.
Proof.
  revert d. unfold ui_run. induction events as [|e events IH]; intros d; simpl.
  - exists []. reflexivity.
  - destruct (IH (ui_step d e)) as [ops Hops]. rewrite Hops.
    destruct (ui_step_is_step d e) as [->|[op ->]].
    + exists ops. reflexivity.
    + exists (op :: ops). reflexivity.
Qed.

Lemma run_occupied (ops : list operation) (d : db) :
  sessions_pk d -> occupied_has_session d -> occupied_has_session (run ops d).
Proof.
  revert d. unfold run. induction ops as [|op ops IH]; intros d Hpk Hocc; simpl.
  - exact Hocc.
  - apply IH; [apply step_sessions_pk|apply step_occupied]; assumption.
Qed.

(** Every state the program reaches from the seeded database, by the
    operations of the data-access module or by the buttons of the user
    interface, has distinct product and session ids, non-negative
    stocks, at most one open session for each table, an active session
    for every Occupied table, and an existing product for every
    order. *)
Theorem reachable_states_are_consistent (ops : list operation) (events : list ui_event) :
  (products_pk (run ops seeded_db) /\ sessions_pk (run ops seeded_db) /\
   stock_nonneg (run ops seeded_db) /\ at_most_one_open (run ops seeded_db) /\
   occupied_has_session (run ops seeded_db) /\
   orders_refer_products (run ops seeded_db)) /\
  (products_pk (ui_run events seeded_db) /\ sessions_pk (ui_run events seeded_db) /\
   stock_nonneg (ui_run events seeded_db) /\ at_most_one_open (ui_run events seeded_db) /\
   occupied_has_session (ui_run events seeded_db) /\
   orders_refer_products (ui_run events seeded_db)).
Proof.
  assert (Hall : forall l,
            products_pk (run l seeded_db) /\ sessions_pk (run l seeded_db) /\
            stock_nonneg (run l seeded_db) /\ at_most_one_open (run l seeded_db) /\
            occupied_has_session (run l seeded_db) /\
            orders_refer_products (run l seeded_db)).
  { intros l.
    assert (Hpk : sessions_pk seeded_db) by (unfold sessions_pk; simpl; constructor).
    destruct (run_products l seeded_db seeded_db_products) as [H1 H2].
    split; [exact H1|]. split; [apply run_sessions_pk; exact Hpk|].
    split; [exact H2|]. split; [apply run_one_open; intros t; simpl; lia|].
    split; [|apply run_orders_refer; exact seeded_db_orders_refer].
    apply run_occupied; [exact Hpk|].
    intros r Hin Hst. vm_compute in Hin.
    repeat (destruct Hin as [<-|Hin]; [discriminate|]). destruct Hin. }
  split; [apply Hall|].
  destruct (ui_run_is_run events seeded_db) as [l ->]. apply Hall.
Qed.
